(** * simple-one-api: service registry and Coze protocol handler

    A shallow embedding of [pkg/config/config.go] and
    [pkg/handler/openai_cozecn_handler.go], followed by the properties of
    the registry, the selector, the resource governor and the streaming
    translator.

    Conventions of the embedding:
    - a Go [int] is a [Z]; a Go [string] is a [string]; a Go [map] is a
      [gmap]; a slice is a [list];
    - a Go [error] is its message, a Go [nil] error is [None];
    - a function that may fail to return normally (a panic, a send that
      blocks for ever) returns an [option]: [None] stands for "does not
      return";
    - package-level variables are fields of a record that is passed in and
      handed back;
    - log output is not part of the model. *)

From stdpp Require Import gmap strings list fin_maps.
From Stdlib Require Import ZArith DecimalString.

Abbreviation error := string (only parsing).

(** The line feed, written ["\n"] in the Go sources. *)
Definition LF : string := String (Ascii.ascii_of_nat 10) EmptyString.

(** ** Pieces of the Go standard library the sources lean on *)

Module fmt.

(** The verb [%d] applied to an [int]. *)
Definition d (n : Z) : string := NilZero.string_of_int (Z.to_int n).

End fmt.

Module strings.

(** [strings.HasPrefix s prefix]. *)
Fixpoint HasPrefix (s prefix : string) {struct prefix} : bool :=
  match prefix, s with
  | EmptyString, _ => true
  | String _ _, EmptyString => false
  | String p prefix', String c s' => Ascii.eqb c p && HasPrefix s' prefix'
  end.

(** [strings.TrimPrefix s prefix]: [s] without the leading [prefix], or
    [s] itself when it does not start with [prefix]. *)
Definition TrimPrefix (s prefix : string) : string :=
  if HasPrefix s prefix
  then String.substring (String.length prefix) (String.length s - String.length prefix) s
  else s.

End strings.

Module time.

(** A [time.Duration] counts nanoseconds. *)
Definition Minute : Z := 60000000000.

End time.

Module rate.

(** A [rate.Limit] is a frequency of events. It is a [float64] in Go; here
    it is kept as the expression that built it:
    [OfInt n] is the conversion [rate.Limit(n)], [n] events per second;
    [OncePer d] is [1 / d.Seconds()], one event every [d] nanoseconds. *)
Inductive Limit : Type :=
| OfInt (n : Z)
| OncePer (interval : Z)
| Inf.

(** [rate.Every]: a non-positive interval means no limit. *)
Definition Every (interval : Z) : Limit :=
  if (interval <=? 0)%Z then Inf else OncePer interval.

(** A token bucket: its refill rate and its capacity. *)
Record Limiter := NewLimiter { limit : Limit; burst : Z }.

End rate.

Module chan.

(** A buffered [chan struct{}]: the elements carry nothing, so the channel
    is its capacity and the number of elements it holds. *)
Record t := { cap : Z; len : Z }.

(** [make(chan struct{}, n)] panics on a negative size. *)
Definition make (n : Z) : option t :=
  if (n <? 0)%Z then None else Some {| cap := n; len := 0 |}.

(** [c <- struct{}{}] returns once there is room; on a full channel that
    nobody reads the sender never returns. *)
Definition send (c : t) : option t :=
  if (len c <? cap c)%Z then Some {| cap := cap c; len := len c + 1 |} else None.

(** [for i := 0; i < n; i++ { c <- struct{}{} }], for [k] rounds. *)
Fixpoint sendN (k : nat) (c : t) : option t :=
  match k with
  | O => Some c
  | S k' => c' ← send c; sendN k' c'
  end.

End chan.

(** ** Package [config] *)

Module config.

Definition defaultLimitTimeout : Z := 10.

Module Limit.
Record t := { QPS : Z; QPM : Z; Concurrency : Z; Timeout : Z }.
End Limit.

Module ServiceModel.
Record t := {
  Models : list string;
  Enabled : bool;
  Credentials : gmap string string;
  ServerURL : string;
  ModelMap : gmap string string;
  Limit : Limit.t;
  Limiter : option rate.Limiter;
  Timeout : Z;
  ConcurrencyLimiter : option chan.t
}.
End ServiceModel.

Module Configuration.
Record t := {
  ServerPort : string;
  Debug : bool;
  APIKey : string;
  LoadBalancing : string;
  Services : gmap string (list ServiceModel.t)
}.
End Configuration.

(** [ServiceModel] is embedded in [ModelDetails]: Go promotes its fields,
    here they are reached through the projection [ServiceModel]. *)
Record ModelDetails := { ServiceName : string; ServiceModel : ServiceModel.t }.

(** The package-level variables. *)
Record Globals := {
  ModelToService : gmap string (list ModelDetails);
  LoadBalancingStrategy : string;
  ServerPort : string;
  APIKey : string;
  Debug : bool
}.

(** The order in which a [range] over the services map visits its
    entries. Go leaves it unspecified; it is some enumeration of the map. *)
Class MapRange := {
  range : gmap string (list ServiceModel.t) → list (string * list ServiceModel.t);
  range_perm : ∀ m, range m ≡ₚ map_to_list m
}.

(** The source of [rand.Intn]: a number in [[0, n)] for a positive [n]. *)
Class RandSource := {
  Intn : nat → nat;
  Intn_range : ∀ n, 0 < n → Intn n < n
}.

(** What [InitConfig] asks of its surroundings: [utils], [os] and
    [encoding/json]. [Unmarshal data] is the value left in a zero
    [Configuration] together with the error returned. *)
Class Host := {
  ResolveRelativePathToAbsolute : string → string + error;
  ReadFile : string → string + error;
  Unmarshal : string → Configuration.t * option error
}.

(** Lines 62-77 of [createModelToServiceMap]: the limiter and the
    semaphore of one entry. *)
Definition newGovernor (l : Limit.t) : option (option rate.Limiter * option chan.t) :=
  if (0 <? Limit.QPS l)%Z then
    Some (Some (rate.NewLimiter (rate.OfInt (Limit.QPS l)) (Limit.QPS l)), None)
  else if (0 <? Limit.QPM l)%Z then
    Some (Some (rate.NewLimiter
                  (rate.Every (Z.quot (1 * time.Minute) (Limit.QPM l)))
                  (Limit.QPM l)), None)
  else if (0 <? Limit.Concurrency l)%Z then
    semaphore ← chan.make (Limit.Concurrency l);
    semaphore ← chan.sendN (Z.to_nat (Limit.Concurrency l)) semaphore;
    Some (None, Some semaphore)
  else Some (None, None).

(** Lines 82-85: the timeout of one entry. *)
Definition newTimeout (l : Limit.t) : Z :=
  if (0 <? Limit.Timeout l)%Z then Limit.Timeout l else defaultLimitTimeout.

(** Lines 79-85: the loop's copy of the entry with its three derived
    fields assigned. *)
Definition assign (model : ServiceModel.t) (limiter : option rate.Limiter)
    (semaphore : option chan.t) (timeout : Z) : ServiceModel.t :=
  {| ServiceModel.Models := ServiceModel.Models model;
     ServiceModel.Enabled := ServiceModel.Enabled model;
     ServiceModel.Credentials := ServiceModel.Credentials model;
     ServiceModel.ServerURL := ServiceModel.ServerURL model;
     ServiceModel.ModelMap := ServiceModel.ModelMap model;
     ServiceModel.Limit := ServiceModel.Limit model;
     ServiceModel.Limiter := limiter;
     ServiceModel.Timeout := timeout;
     ServiceModel.ConcurrencyLimiter := semaphore |}.

Definition prepare (model : ServiceModel.t) : option ServiceModel.t :=
  '(limiter, semaphore) ← newGovernor (ServiceModel.Limit model);
  Some (assign model limiter semaphore (newTimeout (ServiceModel.Limit model))).

(** Line 94: [modelToService[modelName] = append(modelToService[modelName], detail)]. *)
Definition register (detail : ModelDetails)
    (modelToService : gmap string (list ModelDetails)) (modelName : string)
    : gmap string (list ModelDetails) :=
  <[modelName := (modelToService !!! modelName) ++ [detail]]> modelToService.

(** Lines 89-95: the loop over the names of one entry. *)
Definition rangeModels (serviceName : string) (model : ServiceModel.t)
    (modelToService : gmap string (list ModelDetails)) : gmap string (list ModelDetails) :=
  foldl (register {| ServiceName := serviceName; ServiceModel := model |})
        modelToService (ServiceModel.Models model).

(** Lines 60-97: the loop over the entries of one service. *)
Fixpoint rangeServiceModels (serviceName : string) (serviceModels : list ServiceModel.t)
    (modelToService : gmap string (list ModelDetails))
    : option (gmap string (list ModelDetails)) :=
  match serviceModels with
  | [] => Some modelToService
  | model :: rest =>
      if ServiceModel.Enabled model then
        model' ← prepare model;
        rangeServiceModels serviceName rest (rangeModels serviceName model' modelToService)
      else rangeServiceModels serviceName rest modelToService
  end.

(** Lines 59-98: the loop over the services, in the order of the range. *)
Fixpoint rangeServices (services : list (string * list ServiceModel.t))
    (modelToService : gmap string (list ModelDetails))
    : option (gmap string (list ModelDetails)) :=
  match services with
  | [] => Some modelToService
  | (serviceName, serviceModels) :: rest =>
      modelToService' ← rangeServiceModels serviceName serviceModels modelToService;
      rangeServices rest modelToService'
  end.

Definition createModelToServiceMap `{MapRange} (config : Configuration.t)
    : option (gmap string (list ModelDetails)) :=
  rangeServices (range (Configuration.Services config)) ∅.

(** [InitConfig]: the error it returns and the package variables it leaves. *)
Definition InitConfig `{MapRange, Host} (configName : string) (g : Globals)
    : option (Globals * option error) :=
  let configName := if (configName =? "")%string then "config.json" else configName in
  match ResolveRelativePathToAbsolute configName with
  | inr err => Some (g, Some err)
  | inl configAbsolutePath =>
      match ReadFile configAbsolutePath with
      | inr err => Some (g, Some err)
      | inl data =>
          (* the error of Unmarshal is printed and dropped *)
          let conf := fst (Unmarshal data) in
          let strategy :=
            if (Configuration.LoadBalancing conf =? "")%string then "random"
            else Configuration.LoadBalancing conf in
          let apiKey :=
            if negb (Configuration.APIKey conf =? "")%string then Configuration.APIKey conf
            else APIKey g in
          let serverPort :=
            if (Configuration.ServerPort conf =? "")%string then ":9090"
            else Configuration.ServerPort conf in
          modelToService ← createModelToServiceMap conf;
          Some ({| ModelToService := modelToService;
                   LoadBalancingStrategy := strategy;
                   ServerPort := serverPort;
                   APIKey := apiKey;
                   Debug := Configuration.Debug conf |}, None)
      end
  end.

Definition GetAllModelService (g : Globals) (modelName : string)
    : list ModelDetails + error :=
  match ModelToService g !! modelName with
  | Some serviceDetails => inl serviceDetails
  | None => inr ("model " +:+ modelName +:+ " not found in the configuration")
  end.

(** [GetModelService]; indexing a slice out of its bounds panics. *)
Definition GetModelService `{RandSource} (g : Globals) (modelName : string)
    : option (ModelDetails + error) :=
  match ModelToService g !! modelName with
  | Some serviceDetails =>
      let enabledServices :=
        filter (λ sd, ServiceModel.Enabled (ServiceModel sd) = true) serviceDetails in
      if (length enabledServices =? 0)%nat then
        Some (inr ("no enabled model " +:+ modelName +:+ " found in the configuration"))
      else if (LoadBalancingStrategy g =? "first")%string then
        inl <$> enabledServices !! 0%nat
      else if (LoadBalancingStrategy g =? "random")%string then
        inl <$> enabledServices !! Intn (length enabledServices)
      else
        inl <$> enabledServices !! Intn (length enabledServices)
  | None => Some (inr ("model " +:+ modelName +:+ " not found in the configuration"))
  end.

(** The order in which a [range] over the index visits its entries: some
    enumeration of the map, as for the services. *)
Class IndexRange := {
  rangeIndex : gmap string (list ModelDetails) → list (string * list ModelDetails);
  rangeIndex_perm : ∀ m, rangeIndex m ≡ₚ map_to_list m
}.

(** [rand.Intn(n)] panics unless [n] is positive. *)
Definition randIntn `{RandSource} (n : nat) : option nat :=
  if (n =? 0)%nat then None else Some (Intn n).

(** Lines 199-203: the loop over the details under one name. *)
Definition collectEnabled (enabledModels models : list ModelDetails) : list ModelDetails :=
  foldl (λ enabledModels model,
           if ServiceModel.Enabled (ServiceModel model) then enabledModels ++ [model]
           else enabledModels)
        enabledModels models.

(** Lines 198-204: the loop over the index. *)
Definition allEnabled `{IndexRange} (g : Globals) : list ModelDetails :=
  foldl (λ enabledModels kv, collectEnabled enabledModels kv.2) []
        (rangeIndex (ModelToService g)).

Definition GetRandomEnabledModelDetails `{IndexRange, RandSource} (g : Globals)
    : option (ModelDetails + error) :=
  let enabledModels := allEnabled g in
  if (length enabledModels =? 0)%nat then Some (inr "no enabled ModelDetails found")
  else
    k ← randIntn (length enabledModels);
    randomModel ← enabledModels !! k;
    Some (inl randomModel).

(** [GetRandomEnabledModelDetailsV1] draws twice; [first] and [second] are
    the source as it stands at each draw. *)
Definition GetRandomEnabledModelDetailsV1 `{IndexRange} (first second : RandSource)
    (g : Globals) : option (ModelDetails * string + error) :=
  r ← @GetRandomEnabledModelDetails _ first g;
  match r with
  | inr err => Some (inr err)
  | inl md =>
      k ← @randIntn second (length (ServiceModel.Models (ServiceModel md)));
      randomString ← ServiceModel.Models (ServiceModel md) !! k;
      Some (inl (md, randomString))
  end.


End config.

(** ** Collaborators of the handler *)

Module io.

(** An [io.Reader], by what its two consumers observe of it: [ReadAll] is
    the result of [io.ReadAll]; [Lines] are the tokens a line
    [bufio.Scanner] hands out through [Scan] and [Text] before [Scan]
    answers false, and [ScanErr] is what [Err] returns then. *)
Record Reader := {
  ReadAll : string + error;
  Lines : list string;
  ScanErr : option error
}.

End io.

Module http.

Definition StatusOK : Z := 200.

Record Response := { Body : io.Reader }.

End http.

Module openai.

(** The request and response shapes of [github.com/sashabaranov/go-openai],
    with the fields the handler and its consumers look at. *)
Module ChatCompletionMessage.
Record t := { Role : string; Content : string }.
End ChatCompletionMessage.

Module ChatCompletionRequest.
Record t := {
  Model : string;
  Messages : list ChatCompletionMessage.t;
  Stream : bool
}.
End ChatCompletionRequest.

Module ChatCompletionResponse.
Record t := {
  ID : string;
  Model : string;
  Choices : list ChatCompletionMessage.t
}.

(** [resp.Model = model]. *)
Definition setModel (resp : t) (model : string) : t :=
  {| ID := ID resp; Model := model; Choices := Choices resp |}.
End ChatCompletionResponse.

Module ChatCompletionStreamResponse.
Record t := {
  ID : string;
  Model : string;
  Choices : list ChatCompletionMessage.t
}.

Definition setModel (resp : t) (model : string) : t :=
  {| ID := ID resp; Model := model; Choices := Choices resp |}.
End ChatCompletionStreamResponse.

End openai.

Module cozecn.

(** Modelled from the spec: the declarations of [cozecn.Response] and
    [cozecn.StreamResponse] (package [llm/devplatform/cozecn]) are missing
    from the sources. These are the envelope of section 4.4 and the frame
    of section 6, with the fields the handler reads: the status code and
    message of the envelope, the [event] discriminator of a frame, the
    nested type tag of its message and the code and message of its error. *)
Module Message.
Record t := { Role : string; Type_ : string; Content : string }.
End Message.

Module ErrorInformation.
Record t := { Code : Z; Msg : string }.
End ErrorInformation.

Module Response.
Record t := {
  Messages : list Message.t;
  ConversationId : string;
  Code : Z;
  Msg : string
}.
End Response.

Module StreamResponse.
Record t := {
  Event : string;
  Message : Message.t;
  ConversationId : string;
  ErrorInformation : ErrorInformation.t
}.
End StreamResponse.

End cozecn.

Module adapter.

(** Modelled from the spec: package [adapter] is missing from the sources.
    Its two conversions map the payload of an envelope, or of a frame, into
    the canonical completion, or chunk; they are taken as given. *)
Class Conversions := {
  CozecnReponseToOpenAIResponse :
    cozecn.Response.t → openai.ChatCompletionResponse.t;
  CozecnReponseToOpenAIResponseStream :
    cozecn.StreamResponse.t → openai.ChatCompletionStreamResponse.t
}.

End adapter.

Module json.

(** [encoding/json] at the three types the handler uses it at. Each
    decoder starts from a zero value; each result is the value or the
    error. *)
Class Codec := {
  UnmarshalResponse : string → cozecn.Response.t + error;
  UnmarshalStreamResponse : string → cozecn.StreamResponse.t + error;
  MarshalStreamResponse : openai.ChatCompletionStreamResponse.t → string + error
}.

End json.

Module gin.

(** What a handler does to its [gin.Context], in order. A write records
    the error it met, if any. *)
Inductive effect : Type :=
| EventStreamHeaders
| JSON (status : Z) (obj : openai.ChatCompletionResponse.t)
| WriteString (s : string) (err : option error)
| Flush.

(** A context: the effects so far, and the fate of the writes to come
    (the [k]-th entry is the error of the [k]-th write from now on; writes
    beyond the list succeed). *)
Record Context := { done : list effect; faults : list (option error) }.

Definition record (c : Context) (e : effect) : Context :=
  {| done := done c ++ [e]; faults := faults c |}.

(** [c.Writer.WriteString(s)], with the error it returns. *)
Definition writeString (c : Context) (s : string) : Context * option error :=
  match faults c with
  | [] => ({| done := done c ++ [WriteString s None]; faults := [] |}, None)
  | err :: later => ({| done := done c ++ [WriteString s err]; faults := later |}, err)
  end.

(** The strings handed to [WriteString], in order. *)
Fixpoint written (es : list effect) : list string :=
  match es with
  | [] => []
  | WriteString s _ :: es' => s :: written es'
  | _ :: es' => written es'
  end.

End gin.

Module nethttp.

(** An outgoing [http.Request]. Each header holds one value here, the one
    [Header.Set] left. *)
Record Request := {
  Method : string;
  URL : string;
  Header : gmap string string;
  Body : string
}.

(** What the handler asks of [net/http]: [parseURL] is the error, if any,
    that [http.NewRequest] meets in the address; [Do] is [client.Do]. *)
Class Client := {
  parseURL : string → option error;
  Do : Request → http.Response + error
}.

Definition NewRequest `{Client} (method url body : string) : Request + error :=
  match parseURL url with
  | Some err => inr err
  | None => inl {| Method := method; URL := url; Header := ∅; Body := body |}
  end.

(** [req.Header.Set(key, value)], for a key in canonical form. *)
Definition HeaderSet (req : Request) (key value : string) : Request :=
  {| Method := Method req; URL := URL req;
     Header := <[key := value]> (Header req); Body := Body req |}.

End nethttp.

(** ** Package [handler] *)

Module handler.

(** How one round of the scanning loop ends: with the next line, or by
    leaving the function with an error or [nil]. *)
Inductive flow : Type :=
| Next
| Return (err : option error).

Section Handler.
Context `{adapter.Conversions, json.Codec}.

(** Lines 111-152: the body of the loop, for one line. *)
Definition handleLine (oaiReq : openai.ChatCompletionRequest.t) (c : gin.Context)
    (line : string) : gin.Context * flow :=
  if strings.HasPrefix line "data:" then
    let line := strings.TrimPrefix line "data:" in
    match json.UnmarshalStreamResponse line with
    | inr err => (c, Return (Some ("解析响应数据错误: " +:+ err)))
    | inl response =>
        let event := cozecn.StreamResponse.Event response in
        if (event =? "message")%string then
          if (cozecn.Message.Type_ (cozecn.StreamResponse.Message response) =? "verbose")%string
          then (c, Next)
          else
            let oaiRespStream := adapter.CozecnReponseToOpenAIResponseStream response in
            let oaiRespStream :=
              openai.ChatCompletionStreamResponse.setModel oaiRespStream
                (openai.ChatCompletionRequest.Model oaiReq) in
            match json.MarshalStreamResponse oaiRespStream with
            | inr err => (c, Return (Some err))
            | inl respData =>
                (* the error of WriteString is printed and dropped *)
                let c := fst (gin.writeString c ("data: " +:+ respData +:+ LF +:+ LF)) in
                (gin.record c gin.Flush, Next)
            end
        else if (event =? "done")%string then (c, Return None)
        else if (event =? "error")%string then
          let info := cozecn.StreamResponse.ErrorInformation response in
          (c, Return (Some ("错误码: " +:+ fmt.d (cozecn.ErrorInformation.Code info)
                            +:+ ", 错误信息: " +:+ cozecn.ErrorInformation.Msg info)))
        else (c, Return (Some ("message error:" +:+ line)))
    end
  else (c, Next).

(** Lines 110-153: [for scanner.Scan() { ... }] over the lines still to
    come. *)
Fixpoint scanLoop (oaiReq : openai.ChatCompletionRequest.t) (c : gin.Context)
    (lines : list string) : gin.Context * flow :=
  match lines with
  | [] => (c, Next)
  | line :: rest =>
      match handleLine oaiReq c line with
      | (c', Next) => scanLoop oaiReq c' rest
      | (c', Return err) => (c', Return err)
      end
  end.

Definition handleCozecnStreamResponse (c : gin.Context)
    (oaiReq : openai.ChatCompletionRequest.t) (body : io.Reader)
    : gin.Context * option error :=
  let c := gin.record c gin.EventStreamHeaders in
  match scanLoop oaiReq c (io.Lines body) with
  | (c, Return err) => (c, err)
  | (c, Next) =>
      match io.ScanErr body with
      | Some err => (c, Some ("读取流式响应数据错误: " +:+ err))
      | None => (c, None)
      end
  end.

Definition handleCozecnResponse (c : gin.Context) (resp : http.Response)
    (oaiReq : openai.ChatCompletionRequest.t) : gin.Context * option error :=
  if openai.ChatCompletionRequest.Stream oaiReq then
    handleCozecnStreamResponse c oaiReq (http.Body resp)
  else
    match io.ReadAll (http.Body resp) with
    | inr err => (c, Some err)
    | inl body =>
        match json.UnmarshalResponse body with
        | inr err => (c, Some ("json解码错误: " +:+ err))
        | inl respJson =>
            if negb (cozecn.Response.Code respJson =? 0)%Z then
              (c, Some ("错误码: " +:+ fmt.d (cozecn.Response.Code respJson)
                        +:+ ", 错误信息: " +:+ cozecn.Response.Msg respJson))
            else
              let myresp := adapter.CozecnReponseToOpenAIResponse respJson in
              let myresp :=
                openai.ChatCompletionResponse.setModel myresp
                  (openai.ChatCompletionRequest.Model oaiReq) in
              (gin.record c (gin.JSON http.StatusOK myresp), None)
        end
    end.

End Handler.

Definition defaultCozecnURL : string := "https://api.coze.cn/open_api/v2/chat".
Definition defaultCozecomURL : string := "https://api.coze.com/open_api/v2/chat".

(** Modelled from the spec: the two credential kinds (the constants
    [config.KEYNAME_API_KEY] and [config.KEYNAME_TOKEN]), the backend's
    request type and [adapter.OpenAIRequestToCozecnRequest] are missing
    from the sources. The primary and the secondary credential kind, the
    native request schema and the translation into it are taken as given;
    [MarshalRequest] is [json.Marshal] at the native request. *)
Class Outbound := {
  KEYNAME_API_KEY : string;
  KEYNAME_TOKEN : string;
  CozecnRequest : Type;
  OpenAIRequestToCozecnRequest : openai.ChatCompletionRequest.t → CozecnRequest;
  MarshalRequest : CozecnRequest → string + error
}.

Section Dispatch.
Context `{adapter.Conversions, json.Codec, nethttp.Client, Outbound}.

Definition sendRequest (c : gin.Context) (token url : string) (request : CozecnRequest)
    (oaiReq : openai.ChatCompletionRequest.t) : gin.Context * option error :=
  match MarshalRequest request with
  | inr err => (c, Some ("json编码错误: " +:+ err))
  | inl jsonData =>
      match nethttp.NewRequest "POST" url jsonData with
      | inr err => (c, Some err)
      | inl req =>
          let req := nethttp.HeaderSet req "Authorization" ("Bearer " +:+ token) in
          let req := nethttp.HeaderSet req "Content-Type" "application/json" in
          match nethttp.Do req with
          | inr err => (c, Some err)
          | inl resp => handleCozecnResponse c resp oaiReq
          end
      end
  end.

Definition OpenAI2CozecnHandler (c : gin.Context) (s : config.ModelDetails)
    (oaiReq : openai.ChatCompletionRequest.t) : gin.Context * option error :=
  let credentials := config.ServiceModel.Credentials (config.ServiceModel s) in
  let secretToken := default "" (credentials !! KEYNAME_API_KEY) in
  let secretToken :=
    if (secretToken =? "")%string then default "" (credentials !! KEYNAME_TOKEN)
    else secretToken in
  let cozecnReq := OpenAIRequestToCozecnRequest oaiReq in
  let cozeServerURL := config.ServiceModel.ServerURL (config.ServiceModel s) in
  let cozeServerURL :=
    if (cozeServerURL =? "")%string then
      if (config.ServiceName s =? "cozecn")%string then defaultCozecnURL
      else if (config.ServiceName s =? "cozecom")%string then defaultCozecomURL
      else defaultCozecnURL
    else cozeServerURL in
  sendRequest c secretToken cozeServerURL cozecnReq oaiReq.

End Dispatch.

End handler.

(** * Vocabulary of the properties *)

Module registry.
Import config.

(** The limiter and the semaphore [newGovernor] arrives at, in closed
    form: the pool holds as many permits as it has room for. *)
Definition governorOf (l : Limit.t) : option rate.Limiter * option chan.t :=
  if (0 <? Limit.QPS l)%Z then
    (Some (rate.NewLimiter (rate.OfInt (Limit.QPS l)) (Limit.QPS l)), None)
  else if (0 <? Limit.QPM l)%Z then
    (Some (rate.NewLimiter
             (rate.Every (Z.quot (1 * time.Minute) (Limit.QPM l))) (Limit.QPM l)), None)
  else if (0 <? Limit.Concurrency l)%Z then
    (None, Some {| chan.cap := Limit.Concurrency l; chan.len := Limit.Concurrency l |})
  else (None, None).

(** The copy of an entry that the index holds. *)
Definition prepared (model : ServiceModel.t) : ServiceModel.t :=
  assign model (governorOf (ServiceModel.Limit model)).1
    (governorOf (ServiceModel.Limit model)).2
    (newTimeout (ServiceModel.Limit model)).

(** The details one entry contributes under the name [M]: one for each
    time [M] occurs in its list of names. *)
Definition detailsOf (M serviceName : string) (model : ServiceModel.t) : list ModelDetails :=
  (λ _, {| ServiceName := serviceName; ServiceModel := prepared model |})
    <$> filter (λ modelName, modelName = M) (ServiceModel.Models model).

(** The details the enabled entries of one service contribute under [M]. *)
Definition serviceUnder (M serviceName : string) (serviceModels : list ServiceModel.t)
    : list ModelDetails :=
  model ← filter (λ model, ServiceModel.Enabled model = true) serviceModels;
  detailsOf M serviceName model.

(** The details all services contribute under [M], in visiting order. *)
Definition entriesUnder (M : string) (services : list (string * list ServiceModel.t))
    : list ModelDetails :=
  service ← services; serviceUnder M service.1 service.2.

(** [M] is a name of some entry of the configuration, enabled or not. *)
Definition declared (config : Configuration.t) (M : string) : Prop :=
  ∃ serviceName serviceModels model,
    Configuration.Services config !! serviceName = Some serviceModels
    ∧ model ∈ serviceModels ∧ M ∈ ServiceModel.Models model.

(** [M] is a name of some enabled entry of the configuration. *)
Definition declaredEnabled (config : Configuration.t) (M : string) : Prop :=
  ∃ serviceName serviceModels model,
    Configuration.Services config !! serviceName = Some serviceModels
    ∧ model ∈ serviceModels ∧ ServiceModel.Enabled model = true
    ∧ M ∈ ServiceModel.Models model.

(** The two failures of a lookup. *)
Definition NotFound (M : string) : error :=
  "model " +:+ M +:+ " not found in the configuration".

Definition NoEnabledService (M : string) : error :=
  "no enabled model " +:+ M +:+ " found in the configuration".

(** No name of the index is bound to an empty list. *)
Definition populated (modelToService : gmap string (list ModelDetails)) : Prop :=
  ∀ M, modelToService !! M ≠ Some [].

(** The four modes of a governor, after section 4.2. *)
Inductive mode : Type :=
| RateQPS (qps : Z)
| RateQPM (qpm : Z)
| PermitPool (size : Z)
| Unlimited.

(** The mode the priority qps > qpm > concurrency > none selects. *)
Definition selectedMode (l : Limit.t) : mode :=
  if (0 <? Limit.QPS l)%Z then RateQPS (Limit.QPS l)
  else if (0 <? Limit.QPM l)%Z then RateQPM (Limit.QPM l)
  else if (0 <? Limit.Concurrency l)%Z then PermitPool (Limit.Concurrency l)
  else Unlimited.

(** The fields of an entry are those of a governor in mode [m]: a bucket of
    capacity [qps] refilled [qps] times a second; a bucket of capacity
    [qpm] refilled once every [60/qpm] seconds; a pool of [size] permits,
    all of them in; or nothing at all. *)
Definition active (model : ServiceModel.t) (m : mode) : Prop :=
  match m with
  | RateQPS qps =>
      ServiceModel.Limiter model = Some (rate.NewLimiter (rate.OfInt qps) qps)
      ∧ ServiceModel.ConcurrencyLimiter model = None
  | RateQPM qpm =>
      ServiceModel.Limiter model
        = Some (rate.NewLimiter (rate.Every (Z.quot time.Minute qpm)) qpm)
      ∧ ServiceModel.ConcurrencyLimiter model = None
  | PermitPool size =>
      ServiceModel.Limiter model = None
      ∧ ServiceModel.ConcurrencyLimiter model = Some {| chan.cap := size; chan.len := size |}
  | Unlimited =>
      ServiceModel.Limiter model = None ∧ ServiceModel.ConcurrencyLimiter model = None
  end.

(** The package variables with another strategy name. *)
Definition withStrategy (g : Globals) (strategy : string) : Globals :=
  {| ModelToService := ModelToService g;
     LoadBalancingStrategy := strategy;
     ServerPort := ServerPort g;
     APIKey := APIKey g;
     Debug := Debug g |}.

(** The enabled details under [M], as [GetModelService] collects them. *)
Definition enabledUnder (g : Globals) (M : string) : list ModelDetails :=
  filter (λ sd, ServiceModel.Enabled (ServiceModel sd) = true) (ModelToService g !!! M).

End registry.

(** * Vocabulary of the streaming translator *)

Module stream.

(** How the translation of a run of frames ends: the frames ran out, a
    "done" frame closed the stream, or an "error" frame failed it. *)
Inductive ending : Type :=
| Open
| Closed
| Failed (code : Z) (msg : string).

(** The error that carries a backend's code and message. *)
Definition BackendError (code : Z) (msg : string) : error :=
  "错误码: " +:+ fmt.d code +:+ ", 错误信息: " +:+ msg.

(** The frame a canonical chunk travels in. *)
Definition dataFrame (payload : string) : string :=
  "data: " +:+ payload +:+ LF +:+ LF.

(** The canonical chunk of a frame: the adapter's conversion, tagged with
    the model name of the request. *)
Definition canonical `{adapter.Conversions} (oaiReq : openai.ChatCompletionRequest.t)
    (f : cozecn.StreamResponse.t) : openai.ChatCompletionStreamResponse.t :=
  openai.ChatCompletionStreamResponse.setModel
    (adapter.CozecnReponseToOpenAIResponseStream f)
    (openai.ChatCompletionRequest.Model oaiReq).

(** The line carries the frame: it is the marker "data:" followed by a
    payload that decodes to the frame. *)
Definition carries `{json.Codec} (line : string) (f : cozecn.StreamResponse.t) : Prop :=
  ∃ payload, line = "data:" +:+ payload ∧ json.UnmarshalStreamResponse payload = inl f.

(** The lines of a body that bear data: those that begin with the marker. *)
Definition dataLines (lines : list string) : list string :=
  filter (λ line, strings.HasPrefix line "data:" = true) lines.

(** The frame is of one of the three kinds of section 6. *)
Definition known (f : cozecn.StreamResponse.t) : Prop :=
  cozecn.StreamResponse.Event f = "message"
  ∨ cozecn.StreamResponse.Event f = "done"
  ∨ cozecn.StreamResponse.Event f = "error".

(** The frame is a message frame whose nested type is not "verbose". *)
Definition content (f : cozecn.StreamResponse.t) : Prop :=
  cozecn.StreamResponse.Event f = "message"
  ∧ cozecn.Message.Type_ (cozecn.StreamResponse.Message f) ≠ "verbose".

(** The translator as the specification words it, over decoded frames of
    the three kinds: a verbose message is suppressed, any other message
    yields one chunk, "done" closes the stream, an error frame fails it. *)
Fixpoint translate (chunk : cozecn.StreamResponse.t → string)
    (frames : list cozecn.StreamResponse.t) : list string * ending :=
  match frames with
  | [] => ([], Open)
  | f :: rest =>
      if (cozecn.StreamResponse.Event f =? "message")%string then
        if (cozecn.Message.Type_ (cozecn.StreamResponse.Message f) =? "verbose")%string
        then translate chunk rest
        else (chunk f :: (translate chunk rest).1, (translate chunk rest).2)
      else if (cozecn.StreamResponse.Event f =? "done")%string then ([], Closed)
      else
        ([], Failed (cozecn.ErrorInformation.Code (cozecn.StreamResponse.ErrorInformation f))
                    (cozecn.ErrorInformation.Msg (cozecn.StreamResponse.ErrorInformation f)))
  end.

(** The error a handler returns for an ending, given what the scanner
    reports when the frames run out. *)
Definition outcome (e : ending) (scanErr : option error) : option error :=
  match e with
  | Open => (λ err, "读取流式响应数据错误: " +:+ err) <$> scanErr
  | Closed => None
  | Failed code msg => Some (BackendError code msg)
  end.

(** The body with other lines. *)
Definition withLines (body : io.Reader) (lines : list string) : io.Reader :=
  {| io.ReadAll := io.ReadAll body; io.Lines := lines; io.ScanErr := io.ScanErr body |}.

End stream.

(** * Vocabulary of the further properties *)

Module sampling.
Import config.

(** An enabled detail that the index holds under some name. *)
Definition candidate (g : Globals) (d : ModelDetails) : Prop :=
  ∃ M details, ModelToService g !! M = Some details
               ∧ d ∈ details ∧ ServiceModel.Enabled (ServiceModel d) = true.

(** The failure of a draw over an index without enabled details. *)
Definition NoEnabledDetails : error := "no enabled ModelDetails found".

End sampling.

Module trace.

(** What a streaming run adds to the effects of a context once the
    headers are set: for each chunk one write of its data frame, met by
    any fate, followed at once by a flush. Each chunk is the encoding of a
    canonical response that bears the model name [model]. *)
Inductive chunks `{json.Codec} (model : string) : list gin.effect → Prop :=
| chunks_nil : chunks model []
| chunks_cons resp payload err es :
    openai.ChatCompletionStreamResponse.Model resp = model →
    json.MarshalStreamResponse resp = inl payload →
    chunks model es →
    chunks model (gin.WriteString (stream.dataFrame payload) err :: gin.Flush :: es).


End trace.

(** * Sample data *)

Module fixtures.
Import config.

(** A range that visits the services in the order [map_to_list] lists
    them. *)
Definition listedRange : MapRange :=
  {| range := map_to_list; range_perm := λ m, reflexivity (map_to_list m) |}.

(** A source that always draws the last index. *)
Definition drawLast : RandSource :=
  {| Intn := Nat.pred; Intn_range := λ n Hn, Nat.lt_pred_l n (Nat.neq_sym 0 n (Nat.lt_neq 0 n Hn)) |}.

Definition limitOf (qps qpm concurrency timeout : Z) : Limit.t :=
  {| Limit.QPS := qps; Limit.QPM := qpm;
     Limit.Concurrency := concurrency; Limit.Timeout := timeout |}.

(** An entry as the configuration document declares it: the derived
    fields are still zero. *)
Definition entry (key : string) (models : list string) (enabled : bool) (limit : Limit.t)
    : ServiceModel.t :=
  {| ServiceModel.Models := models;
     ServiceModel.Enabled := enabled;
     ServiceModel.Credentials := {[ "api_key" := key ]};
     ServiceModel.ServerURL := "";
     ServiceModel.ModelMap := ∅;
     ServiceModel.Limit := limit;
     ServiceModel.Limiter := None;
     ServiceModel.Timeout := 0;
     ServiceModel.ConcurrencyLimiter := None |}.

Definition documentOf (strategy : string) (services : gmap string (list ServiceModel.t))
    : Configuration.t :=
  {| Configuration.ServerPort := "";
     Configuration.Debug := false;
     Configuration.APIKey := "";
     Configuration.LoadBalancing := strategy;
     Configuration.Services := services |}.

(** Model "gpt-4" on service "alpha" (rate limited, and once more in a
    disabled entry) and on service "beta" (a pool of three permits). *)
Definition twoServices : Configuration.t :=
  documentOf "round-robin"
    (<["alpha" := [entry "k1" ["gpt-4"] true (limitOf 2 0 0 0);
                   entry "k2" ["gpt-4"; "gpt-3.5"] false (limitOf 0 0 0 0)]]>
     (<["beta" := [entry "k3" ["gpt-4"; "glm"] true (limitOf 0 0 3 30)]]> ∅)).

(** Model "gpt-4" declared by a disabled entry only. *)
Definition disabledOnly : Configuration.t :=
  documentOf "" {[ "alpha" := [entry "k1" ["gpt-4"] false (limitOf 0 0 0 0)] ]}.

Definition zeroConfiguration : Configuration.t := documentOf "" ∅.

Definition zeroGlobals : Globals :=
  {| ModelToService := ∅; LoadBalancingStrategy := "";
     ServerPort := ""; APIKey := ""; Debug := false |}.

(** A host whose configuration file holds [twoServices]. *)
Definition goodHost : Host :=
  {| ResolveRelativePathToAbsolute := λ name, inl ("/srv/" +:+ name);
     ReadFile := λ _, inl "{...}";
     Unmarshal := λ _, (twoServices, None) |}.

(** A host whose configuration file holds a lone opening brace. *)
Definition brokenHost : Host :=
  {| ResolveRelativePathToAbsolute := λ name, inl ("/srv/" +:+ name);
     ReadFile := λ _, inl "{";
     Unmarshal := λ _, (zeroConfiguration, Some "unexpected end of JSON input") |}.

(** An index that holds a disabled entry, as [createModelToServiceMap]
    never builds one. *)
Definition mixedGlobals : Globals :=
  {| ModelToService :=
       {[ "gpt-4" := [ {| ServiceName := "alpha";
                          ServiceModel := entry "k2" ["gpt-4"] false (limitOf 0 0 0 0) |};
                       {| ServiceName := "beta";
                          ServiceModel := entry "k3" ["gpt-4"] true (limitOf 0 0 0 0) |} ];
          "glm" := [ {| ServiceName := "alpha";
                        ServiceModel := entry "k2" ["glm"] false (limitOf 0 0 0 0) |} ] ]};
     LoadBalancingStrategy := "first";
     ServerPort := ":9090"; APIKey := ""; Debug := false |}.

End fixtures.

Module samples.

(** A frame of the stream: its event, and the type and content of its
    message or the code and message of its error. *)
Definition frame (event type content : string) (code : Z) (msg : string)
    : cozecn.StreamResponse.t :=
  {| cozecn.StreamResponse.Event := event;
     cozecn.StreamResponse.Message :=
       {| cozecn.Message.Role := "assistant";
          cozecn.Message.Type_ := type;
          cozecn.Message.Content := content |};
     cozecn.StreamResponse.ConversationId := "c-1";
     cozecn.StreamResponse.ErrorInformation :=
       {| cozecn.ErrorInformation.Code := code; cozecn.ErrorInformation.Msg := msg |} |}.

Definition frameA : cozecn.StreamResponse.t := frame "message" "answer" "Hel" 0 "".
Definition frameV : cozecn.StreamResponse.t := frame "message" "verbose" "{internal}" 0 "".
Definition frameB : cozecn.StreamResponse.t := frame "message" "answer" "lo" 0 "".
Definition frameDone : cozecn.StreamResponse.t := frame "done" "" "" 0 "".
Definition frameError : cozecn.StreamResponse.t := frame "error" "" "" 7 "x".

Definition envelope (code : Z) (msg : string) : cozecn.Response.t :=
  {| cozecn.Response.Messages :=
       [ {| cozecn.Message.Role := "assistant";
            cozecn.Message.Type_ := "answer";
            cozecn.Message.Content := "Hello" |} ];
     cozecn.Response.ConversationId := "c-1";
     cozecn.Response.Code := code;
     cozecn.Response.Msg := msg |}.

(** A codec that knows a handful of payloads by name, and that encodes a
    chunk as its model name and its pieces of content. *)
Definition codec : json.Codec :=
  {| json.UnmarshalResponse := λ body,
       if (body =? "<success>")%string then inl (envelope 0 "success")
       else if (body =? "<denied>")%string then inl (envelope 702 "bot not published")
       else inr "invalid character";
     json.UnmarshalStreamResponse := λ payload,
       if (payload =? "<A>")%string then inl frameA
       else if (payload =? "<V>")%string then inl frameV
       else if (payload =? "<B>")%string then inl frameB
       else if (payload =? "<done>")%string then inl frameDone
       else if (payload =? "<error>")%string then inl frameError
       else inr "invalid character";
     json.MarshalStreamResponse := λ resp,
       inl (foldl (λ acc choice, acc +:+ "|" +:+ openai.ChatCompletionMessage.Content choice)
              (openai.ChatCompletionStreamResponse.Model resp)
              (openai.ChatCompletionStreamResponse.Choices resp)) |}.

(** Conversions that name the backend's bot as the model. *)
Definition conversions : adapter.Conversions :=
  {| adapter.CozecnReponseToOpenAIResponse := λ resp,
       {| openai.ChatCompletionResponse.ID := cozecn.Response.ConversationId resp;
          openai.ChatCompletionResponse.Model := "coze-bot";
          openai.ChatCompletionResponse.Choices :=
            (λ m, {| openai.ChatCompletionMessage.Role := cozecn.Message.Role m;
                     openai.ChatCompletionMessage.Content := cozecn.Message.Content m |})
              <$> cozecn.Response.Messages resp |};
     adapter.CozecnReponseToOpenAIResponseStream := λ resp,
       {| openai.ChatCompletionStreamResponse.ID := cozecn.StreamResponse.ConversationId resp;
          openai.ChatCompletionStreamResponse.Model := "coze-bot";
          openai.ChatCompletionStreamResponse.Choices :=
            [ {| openai.ChatCompletionMessage.Role :=
                   cozecn.Message.Role (cozecn.StreamResponse.Message resp);
                 openai.ChatCompletionMessage.Content :=
                   cozecn.Message.Content (cozecn.StreamResponse.Message resp) |} ] |} |}.

Definition request (stream : bool) : openai.ChatCompletionRequest.t :=
  {| openai.ChatCompletionRequest.Model := "gpt-4";
     openai.ChatCompletionRequest.Messages :=
       [ {| openai.ChatCompletionMessage.Role := "user";
            openai.ChatCompletionMessage.Content := "Hi" |} ];
     openai.ChatCompletionRequest.Stream := stream |}.

(** A streamed body of the given lines, read to its end. *)
Definition streamed (lines : list string) : io.Reader :=
  {| io.ReadAll := inr "unexpected EOF"; io.Lines := lines; io.ScanErr := None |}.

(** A body read in one piece. *)
Definition whole (text : string) : io.Reader :=
  {| io.ReadAll := inl text; io.Lines := [text]; io.ScanErr := None |}.

(** A fresh context whose writes meet the given fates. *)
Definition context (faults : list (option error)) : gin.Context :=
  {| gin.done := []; gin.faults := faults |}.

End samples.

Module samples2.
Import config.

(** A range over the index in the order [map_to_list] lists it. *)
Definition listedIndex : IndexRange :=
  {| rangeIndex := map_to_list; rangeIndex_perm := λ m, reflexivity (map_to_list m) |}.

(** A range over the services in the reverse of that order. *)
Definition reversedRange : MapRange :=
  {| range := λ m, reverse (map_to_list m);
     range_perm := λ m, reverse_Permutation (map_to_list m) |}.

(** An index that holds an enabled entry without names, as
    [createModelToServiceMap] never builds one. *)
Definition namelessGlobals : Globals :=
  {| ModelToService :=
       {[ "gpt-4" := [ {| ServiceName := "alpha";
                          ServiceModel :=
                            fixtures.entry "k1" [] true (fixtures.limitOf 0 0 0 0) |} ] ]};
     LoadBalancingStrategy := "random";
     ServerPort := ":9090"; APIKey := ""; Debug := false |}.

(** An entry of service [serviceName] with both credential kinds, an
    address of its own or none, and an alias for "gpt-4". *)
Definition detail (serviceName apiKey token serverURL : string) : ModelDetails :=
  {| ServiceName := serviceName;
     ServiceModel :=
       {| ServiceModel.Models := ["gpt-4"];
          ServiceModel.Enabled := true;
          ServiceModel.Credentials := {[ "api_key" := apiKey; "token" := token ]};
          ServiceModel.ServerURL := serverURL;
          ServiceModel.ModelMap := {[ "gpt-4" := "bot-7" ]};
          ServiceModel.Limit := fixtures.limitOf 0 0 0 0;
          ServiceModel.Limiter := None;
          ServiceModel.Timeout := 10;
          ServiceModel.ConcurrencyLimiter := None |} |}.

(** The native request is the text of the last message; it encodes as
    itself. *)
Definition outbound : handler.Outbound :=
  {| handler.KEYNAME_API_KEY := "api_key";
     handler.KEYNAME_TOKEN := "token";
     handler.CozecnRequest := string;
     handler.OpenAIRequestToCozecnRequest := λ oaiReq,
       foldl (λ _ m, openai.ChatCompletionMessage.Content m) ""
             (openai.ChatCompletionRequest.Messages oaiReq);
     handler.MarshalRequest := λ text, inl text |}.

(** A backend that accepts every address, answers with the success
    envelope to a request that bears the credential "k1", and refuses the
    connection otherwise. *)
Definition backend : nethttp.Client :=
  {| nethttp.parseURL := λ _, None;
     nethttp.Do := λ req,
       if bool_decide (nethttp.Header req !! "Authorization" = Some "Bearer k1")
       then inl {| http.Body := samples.whole "<success>" |}
       else inr "connection refused" |}.

End samples2.

(** * Properties of the registry *)

Section Registry.
Import config registry.

Lemma sendN_room (k : nat) (c : chan.t) :
  (chan.len c + Z.of_nat k ≤ chan.cap c)%Z →
  chan.sendN k c = Some {| chan.cap := chan.cap c; chan.len := chan.len c + Z.of_nat k |}.
Proof.
  revert c. induction k as [|k IH]; intros c Hroom.
  - simpl. destruct c as [cp ln]. simpl. do 2 f_equal. lia.
  - cbn [chan.sendN]. unfold chan.send.
    destruct (Z.ltb_spec (chan.len c) (chan.cap c)) as [_|Hfull]; [|lia].
    simpl. rewrite IH by (simpl; lia). simpl. do 2 f_equal. lia.
Qed.

Lemma newGovernor_returns (l : Limit.t) : newGovernor l = Some (governorOf l).
Proof.
  unfold newGovernor, governorOf.
  destruct (0 <? Limit.QPS l)%Z; [done|].
  destruct (0 <? Limit.QPM l)%Z; [done|].
  destruct (Z.ltb_spec 0 (Limit.Concurrency l)) as [Hpos|_]; [|done].
  unfold chan.make.
  destruct (Z.ltb_spec (Limit.Concurrency l) 0) as [Hneg|_]; [lia|].
  simpl. rewrite sendN_room by (simpl; lia). simpl.
  rewrite Z2Nat.id by lia. done.
Qed.

Lemma prepare_returns (model : ServiceModel.t) : prepare model = Some (prepared model).
Proof.
  unfold prepare, prepared. rewrite newGovernor_returns.
  by destruct (governorOf (ServiceModel.Limit model)).
Qed.

Lemma register_lookup_total detail m modelName M :
  register detail m modelName !!! M
  = m !!! M ++ (if decide (modelName = M) then [detail] else []).
Proof.
  unfold register. destruct (decide (modelName = M)) as [->|Hne].
  - by rewrite lookup_total_insert_eq.
  - rewrite lookup_total_insert_ne by done. by rewrite app_nil_r.
Qed.

Lemma register_populated detail m modelName :
  populated m → populated (register detail m modelName).
Proof.
  intros Hm M. unfold register. destruct (decide (modelName = M)) as [->|Hne].
  - rewrite lookup_insert_eq. intros [= Heq]. by destruct (m !!! M).
  - rewrite lookup_insert_ne by done. apply Hm.
Qed.

Lemma rangeModels_lookup_total serviceName model m M :
  rangeModels serviceName model m !!! M
  = m !!! M ++ ((λ _, {| ServiceName := serviceName; ServiceModel := model |})
                  <$> filter (λ modelName, modelName = M) (ServiceModel.Models model)).
Proof.
  unfold rangeModels. generalize (ServiceModel.Models model) as names.
  intros names. revert m. induction names as [|n names IH]; intros m.
  - simpl. by rewrite app_nil_r.
  - simpl. rewrite IH, register_lookup_total, filter_cons.
    destruct (decide (n = M)); simpl; by rewrite <- ?app_assoc, ?app_nil_r.
Qed.

Lemma rangeModels_populated serviceName model m :
  populated m → populated (rangeModels serviceName model m).
Proof.
  unfold rangeModels. generalize (ServiceModel.Models model) as names.
  intros names. revert m. induction names as [|n names IH]; intros m Hm; [done|].
  simpl. by apply IH, register_populated.
Qed.

Lemma rangeServiceModels_returns serviceName serviceModels m :
  ∃ m', rangeServiceModels serviceName serviceModels m = Some m'
        ∧ (populated m → populated m')
        ∧ ∀ M, m' !!! M = m !!! M ++ serviceUnder M serviceName serviceModels.
Proof.
  revert m. induction serviceModels as [|model rest IH]; intros m.
  - exists m. split; [done|]. split; [done|]. intros M. by rewrite app_nil_r.
  - cbn [rangeServiceModels]. unfold serviceUnder. rewrite filter_cons.
    destruct (decide (ServiceModel.Enabled model = true)) as [Hen|Hen].
    + rewrite Hen, prepare_returns. simpl.
      destruct (IH (rangeModels serviceName (prepared model) m)) as (m' & -> & Hpop & Hm').
      exists m'. split; [done|]. split.
      * intros Hm. by apply Hpop, rangeModels_populated.
      * intros M. rewrite Hm', rangeModels_lookup_total. by rewrite <- app_assoc.
    + apply not_true_is_false in Hen. rewrite Hen.
      destruct (IH m) as (m' & -> & Hpop & Hm'). by exists m'.
Qed.

Lemma rangeServices_returns services m :
  ∃ m', rangeServices services m = Some m'
        ∧ (populated m → populated m')
        ∧ ∀ M, m' !!! M = m !!! M ++ entriesUnder M services.
Proof.
  revert m. induction services as [|[serviceName serviceModels] rest IH]; intros m.
  - exists m. split; [done|]. split; [done|]. intros M. by rewrite app_nil_r.
  - cbn [rangeServices].
    destruct (rangeServiceModels_returns serviceName serviceModels m) as (m1 & -> & Hpop1 & Hm1).
    simpl. destruct (IH m1) as (m' & -> & Hpop & Hm').
    exists m'. split; [done|]. split; [by auto|].
    intros M. rewrite Hm', Hm1. unfold entriesUnder. simpl. by rewrite <- app_assoc.
Qed.

End Registry.

Section RegistryIndex.
Import config registry.
Context `{MapRange}.

Lemma createModelToServiceMap_returns (config : Configuration.t) :
  ∃ idx, createModelToServiceMap config = Some idx
         ∧ populated idx
         ∧ ∀ M, idx !!! M = entriesUnder M (range (Configuration.Services config)).
Proof.
  unfold createModelToServiceMap.
  destruct (rangeServices_returns (range (Configuration.Services config)) ∅)
    as (idx & -> & Hpop & Hidx).
  exists idx. split; [done|]. split.
  - apply Hpop. intros M. by rewrite lookup_empty.
  - intros M. rewrite Hidx. by rewrite lookup_total_empty.
Qed.

Lemma populated_lookup (idx : gmap string (list ModelDetails)) (M : string) :
  populated idx →
  (idx !!! M = [] → idx !! M = None)
  ∧ (idx !!! M ≠ [] → idx !! M = Some (idx !!! M)).
Proof.
  intros Hpop. specialize (Hpop M). rewrite lookup_total_alt.
  destruct (idx !! M) as [l|]; simpl; split; intros Hl; congruence.
Qed.

Lemma elem_of_entriesUnder (config : Configuration.t) (M : string) (d : ModelDetails) :
  d ∈ entriesUnder M (range (Configuration.Services config))
  ↔ ∃ serviceName serviceModels model,
      Configuration.Services config !! serviceName = Some serviceModels
      ∧ model ∈ serviceModels ∧ ServiceModel.Enabled model = true
      ∧ M ∈ ServiceModel.Models model
      ∧ d = {| ServiceName := serviceName; ServiceModel := prepared model |}.
Proof.
  unfold entriesUnder, serviceUnder, detailsOf. rewrite list_elem_of_bind. split.
  - intros ([serviceName serviceModels] & Hd & Hin). simpl in Hd.
    rewrite range_perm, elem_of_map_to_list in Hin.
    apply list_elem_of_bind in Hd as (model & Hd & Hmodel).
    apply list_elem_of_filter in Hmodel as [Hen Hmodel].
    apply list_elem_of_fmap in Hd as (modelName & -> & Hname).
    apply list_elem_of_filter in Hname as [-> Hname].
    by exists serviceName, serviceModels, model.
  - intros (serviceName & serviceModels & model & Hsvc & Hmodel & Hen & Hname & ->).
    exists (serviceName, serviceModels). split.
    + simpl. apply list_elem_of_bind. exists model. split.
      * apply list_elem_of_fmap. exists M. split; [done|].
        by apply list_elem_of_filter.
      * by apply list_elem_of_filter.
    + by rewrite range_perm, elem_of_map_to_list.
Qed.

Lemma entriesUnder_nil (config : Configuration.t) (M : string) :
  entriesUnder M (range (Configuration.Services config)) = [] ↔ ¬ declaredEnabled config M.
Proof.
  split.
  - intros Hnil (serviceName & serviceModels & model & Hsvc & Hmodel & Hen & Hname).
    assert ({| ServiceName := serviceName; ServiceModel := prepared model |}
            ∈ entriesUnder M (range (Configuration.Services config))) as Hin.
    { apply elem_of_entriesUnder. by exists serviceName, serviceModels, model. }
    rewrite Hnil in Hin. by apply elem_of_nil in Hin.
  - intros Hnone.
    destruct (entriesUnder M (range (Configuration.Services config))) as [|d l] eqn:Hl; [done|].
    exfalso. apply Hnone.
    assert (d ∈ entriesUnder M (range (Configuration.Services config))) as Hin.
    { rewrite Hl. by left. }
    apply elem_of_entriesUnder in Hin
      as (serviceName & serviceModels & model & Hsvc & Hmodel & Hen & Hname & _).
    by exists serviceName, serviceModels, model.
Qed.

Lemma active_prepared (model : ServiceModel.t) (m : mode) :
  active (prepared model) m ↔ m = selectedMode (ServiceModel.Limit model).
Proof.
  unfold active, prepared, selectedMode, governorOf, rate.Every. simpl.
  destruct (0 <? Limit.QPS (ServiceModel.Limit model))%Z;
    [|destruct (0 <? Limit.QPM (ServiceModel.Limit model))%Z;
      [|destruct (0 <? Limit.Concurrency (ServiceModel.Limit model))%Z]];
    simpl; (split; [|by intros ->]); destruct m; simpl;
    repeat case_match; intros [Hl Hc]; congruence.
Qed.

End RegistryIndex.

Section RegistryClaims.
Import config registry.

Lemma filter_enabled_nil (details : list ModelDetails) :
  Forall (λ sd, ServiceModel.Enabled (ServiceModel sd) = false) details →
  filter (λ sd, ServiceModel.Enabled (ServiceModel sd) = true) details = [].
Proof.
  induction 1 as [|sd details Hsd _ IH]; [done|].
  rewrite filter_cons, decide_False by congruence. done.
Qed.

Lemma filter_enabled_cons (details : list ModelDetails) :
  Exists (λ sd, ServiceModel.Enabled (ServiceModel sd) = true) details →
  0 < length (filter (λ sd, ServiceModel.Enabled (ServiceModel sd) = true) details).
Proof.
  intros Hex. apply Exists_exists in Hex as (sd & Hin & Hen).
  assert (sd ∈ filter (λ sd, ServiceModel.Enabled (ServiceModel sd) = true) details) as Hsd.
  { by apply list_elem_of_filter. }
  destruct (filter _ details); [by apply elem_of_nil in Hsd | simpl; lia].
Qed.

Lemma lookup_enabled (details : list ModelDetails) (k : nat) (sd : ModelDetails) :
  filter (λ sd, ServiceModel.Enabled (ServiceModel sd) = true) details !! k = Some sd →
  sd ∈ details ∧ ServiceModel.Enabled (ServiceModel sd) = true.
Proof.
  intros Hk. apply list_elem_of_lookup_2, list_elem_of_filter in Hk. tauto.
Qed.

(** What [GetModelService] does once the name is bound and some entry
    under it is enabled: it draws from the enabled entries, at index 0
    under "first" and at the index [rand.Intn] gives otherwise. *)
Lemma GetModelService_draw `{RandSource} (g : Globals) (M : string) :
  enabledUnder g M ≠ [] →
  GetModelService g M
  = inl <$> enabledUnder g M !! (if (LoadBalancingStrategy g =? "first")%string then 0
                                 else Intn (length (enabledUnder g M))).
Proof.
  unfold enabledUnder, GetModelService. rewrite lookup_total_alt.
  destruct (ModelToService g !! M) as [details|]; simpl; [|done].
  intros Hne.
  destruct (Nat.eqb_spec (length (filter (λ sd, ServiceModel.Enabled (ServiceModel sd) = true)
                                    details)) 0) as [Hlen|_].
  { by apply nil_length_inv in Hlen. }
  by repeat case_match.
Qed.

End RegistryClaims.

Section RegistryTheorems.
Import config registry.

(** C1, as stated, fails: a model name that only a disabled entry declares
    is declared, the index is built, and [GetAllModelService] answers that
    the model is not found. *)
Lemma GetAllModelService_disabled_only_not_found :
  declared fixtures.disabledOnly "gpt-4"
  ∧ ∃ g, @createModelToServiceMap fixtures.listedRange fixtures.disabledOnly
           = Some (ModelToService g)
         ∧ GetAllModelService g "gpt-4" = inr (NotFound "gpt-4").
Proof.
  split.
  - exists "alpha", [fixtures.entry "k1" ["gpt-4"] false (fixtures.limitOf 0 0 0 0)],
      (fixtures.entry "k1" ["gpt-4"] false (fixtures.limitOf 0 0 0 0)).
    split; [by vm_compute|]. split; [by left|]. simpl. by left.
  - exists fixtures.zeroGlobals. split; by vm_compute.
Qed.

(** C1, amended: the index is built from the enabled entries only. For a
    model name M that some enabled entry declares, [GetAllModelService]
    returns the details of the enabled entries that declare M (each with
    its service name and its prepared copy of the entry, and no detail of
    a disabled entry); it answers "not found" exactly when no enabled entry
    declares M. *)
Theorem GetAllModelService_enabled_entries `{MapRange}
    (config : Configuration.t) (g : Globals) (M : string) :
  createModelToServiceMap config = Some (ModelToService g) →
  (declaredEnabled config M →
     GetAllModelService g M = inl (entriesUnder M (range (Configuration.Services config))))
  ∧ (GetAllModelService g M = inr (NotFound M) ↔ ¬ declaredEnabled config M)
  ∧ (∀ d, d ∈ entriesUnder M (range (Configuration.Services config))
          ↔ ∃ serviceName serviceModels model,
              Configuration.Services config !! serviceName = Some serviceModels
              ∧ model ∈ serviceModels ∧ ServiceModel.Enabled model = true
              ∧ M ∈ ServiceModel.Models model
              ∧ d = {| ServiceName := serviceName; ServiceModel := prepared model |}).
Proof.
  intros Hbuilt.
  destruct (createModelToServiceMap_returns config) as (idx & Hidx & Hpop & Hunder).
  rewrite Hbuilt in Hidx. injection Hidx as Hidx. rewrite <- Hidx in Hpop, Hunder.
  destruct (populated_lookup _ M Hpop) as [Hnone Hsome]. rewrite Hunder in Hnone, Hsome.
  pose proof (entriesUnder_nil config M) as Hnil.
  unfold GetAllModelService, NotFound.
  split; [|split].
  - intros Hdecl. rewrite Hsome; [done|]. intros Hempty. by apply Hnil in Hempty.
  - destruct (entriesUnder M (range (Configuration.Services config))) as [|d l] eqn:Hl.
    + rewrite Hnone by done. split; [intros _; by apply Hnil | done].
    + rewrite Hsome by done. split; [done|]. intros Hno. by apply Hnil in Hno.
  - apply elem_of_entriesUnder.
Qed.

(** On two services: "gpt-4" is served by both enabled entries, and
    "gpt-3.5", which only a disabled entry declares, is not found. *)
Lemma GetAllModelService_enabled_entries_witness :
  ∃ g, @createModelToServiceMap fixtures.listedRange fixtures.twoServices
         = Some (ModelToService g)
       ∧ GetAllModelService g "gpt-4"
         = inl [ {| ServiceName := "alpha";
                    ServiceModel :=
                      prepared (fixtures.entry "k1" ["gpt-4"] true (fixtures.limitOf 2 0 0 0)) |};
                 {| ServiceName := "beta";
                    ServiceModel :=
                      prepared (fixtures.entry "k3" ["gpt-4"; "glm"] true
                                  (fixtures.limitOf 0 0 3 30)) |} ]
       ∧ (GetAllModelService g "gpt-3.5" = inr (NotFound "gpt-3.5")
          ↔ ¬ declaredEnabled fixtures.twoServices "gpt-3.5").
Proof.
  destruct (@createModelToServiceMap_returns fixtures.listedRange fixtures.twoServices)
    as (idx & Hidx & _).
  set (g := {| ModelToService := idx; LoadBalancingStrategy := "random";
               ServerPort := ":9090"; APIKey := ""; Debug := false |}).
  exists g. split; [exact Hidx|]. split.
  - refine (eq_trans (proj1 (@GetAllModelService_enabled_entries fixtures.listedRange
                               fixtures.twoServices g "gpt-4" Hidx) _) _).
    + exists "alpha", [fixtures.entry "k1" ["gpt-4"] true (fixtures.limitOf 2 0 0 0);
                       fixtures.entry "k2" ["gpt-4"; "gpt-3.5"] false (fixtures.limitOf 0 0 0 0)],
        (fixtures.entry "k1" ["gpt-4"] true (fixtures.limitOf 2 0 0 0)).
      split; [by vm_compute|]. split; [by left|]. split; [done|]. simpl. by left.
    + by vm_compute.
  - exact (proj1 (proj2 (@GetAllModelService_enabled_entries fixtures.listedRange
                           fixtures.twoServices g "gpt-3.5" Hidx))).
Defined.

(** C2: [GetModelService] answers "not found" when the name is absent from
    the index, "no enabled model" when the name is present and every entry
    under it is disabled, and otherwise returns one of the entries under the
    name, an enabled one; whatever it returns is enabled. *)
Theorem GetModelService_outcomes `{RandSource} (g : Globals) (M : string) :
  (ModelToService g !! M = None → GetModelService g M = Some (inr (NotFound M)))
  ∧ (∀ details, ModelToService g !! M = Some details →
       Forall (λ sd, ServiceModel.Enabled (ServiceModel sd) = false) details →
       GetModelService g M = Some (inr (NoEnabledService M)))
  ∧ (∀ details, ModelToService g !! M = Some details →
       Exists (λ sd, ServiceModel.Enabled (ServiceModel sd) = true) details →
       ∃ sd, GetModelService g M = Some (inl sd)
             ∧ sd ∈ details ∧ ServiceModel.Enabled (ServiceModel sd) = true)
  ∧ (∀ sd, GetModelService g M = Some (inl sd) →
       ServiceModel.Enabled (ServiceModel sd) = true).
Proof.
  split; [|split; [|split]].
  - intros Hnone. unfold GetModelService. by rewrite Hnone.
  - intros details Hsome Hall. unfold GetModelService.
    rewrite Hsome, filter_enabled_nil by done. done.
  - intros details Hsome Hex. apply filter_enabled_cons in Hex.
    assert (enabledUnder g M
            = filter (λ sd, ServiceModel.Enabled (ServiceModel sd) = true) details) as Hunder.
    { unfold enabledUnder. by rewrite lookup_total_alt, Hsome. }
    rewrite GetModelService_draw by (rewrite Hunder; intros Hnil; rewrite Hnil in Hex;
                                     simpl in Hex; lia).
    rewrite Hunder.
    set (k := if (LoadBalancingStrategy g =? "first")%string then 0
              else Intn (length (filter _ details))).
    assert (k < length (filter (λ sd, ServiceModel.Enabled (ServiceModel sd) = true) details))
      as Hk.
    { unfold k. case_match; [done|]. by apply Intn_range. }
    apply lookup_lt_is_Some_2 in Hk as [sd Hsd]. exists sd. rewrite Hsd.
    split; [done|]. by apply lookup_enabled in Hsd.
  - intros sd. unfold GetModelService.
    destruct (ModelToService g !! M) as [details|]; [|done].
    repeat case_match; try done; intros Hsd;
      apply fmap_Some in Hsd as (sd' & Hsd & [= ->]);
      apply lookup_enabled in Hsd as [_ Hen]; exact Hen.
Qed.

(** On an index that holds disabled entries: an absent name, a name whose
    only entry is disabled, and a name with one enabled entry. *)
Lemma GetModelService_outcomes_witness :
  @GetModelService fixtures.drawLast fixtures.mixedGlobals "o1"
    = Some (inr (NotFound "o1"))
  ∧ @GetModelService fixtures.drawLast fixtures.mixedGlobals "glm"
    = Some (inr (NoEnabledService "glm"))
  ∧ ∃ sd, @GetModelService fixtures.drawLast fixtures.mixedGlobals "gpt-4" = Some (inl sd)
          ∧ ServiceName sd = "beta"
          ∧ ServiceModel.Enabled (ServiceModel sd) = true.
Proof.
  destruct (@GetModelService_outcomes fixtures.drawLast fixtures.mixedGlobals "o1")
    as (Habsent & _).
  destruct (@GetModelService_outcomes fixtures.drawLast fixtures.mixedGlobals "glm")
    as (_ & Hdisabled & _).
  destruct (@GetModelService_outcomes fixtures.drawLast fixtures.mixedGlobals "gpt-4")
    as (_ & _ & _ & Henabled).
  split; [apply Habsent; by vm_compute|].
  split.
  - eapply Hdisabled; [by vm_compute|]. by repeat constructor.
  - eexists. split; [by vm_compute|]. split; [done|].
    apply Henabled. by vm_compute.
Defined.

End RegistryTheorems.

Section GovernorTheorems.
Import config registry.

(** C5: every entry that [createModelToServiceMap] builds has exactly one
    governor mode, the one the priority qps > qpm > concurrency > none
    selects from its limits: a token bucket of capacity qps refilled at qps
    per second; else a token bucket of capacity qpm refilled once every
    minute/qpm; else a pool of [concurrency] permits, all loaded; else no
    limiter and no pool. This holds of the copy prepared for each enabled
    entry and of every detail the index holds. *)
Theorem governor_mode_by_priority `{MapRange} (config : Configuration.t) :
  (∀ model, ∃ model', prepare model = Some model'
      ∧ ∀ m, active model' m ↔ m = selectedMode (ServiceModel.Limit model))
  ∧ ∃ idx, createModelToServiceMap config = Some idx
      ∧ ∀ M details d, idx !! M = Some details → d ∈ details →
          ∀ m, active (ServiceModel d) m
               ↔ m = selectedMode (ServiceModel.Limit (ServiceModel d)).
Proof.
  split.
  - intros model. exists (prepared model). split; [apply prepare_returns|].
    apply active_prepared.
  - destruct (createModelToServiceMap_returns config) as (idx & Hidx & Hpop & Hunder).
    exists idx. split; [done|]. intros M details d Hsome Hd m.
    assert (d ∈ idx !!! M) as Hin by (by rewrite lookup_total_alt, Hsome).
    rewrite Hunder in Hin.
    apply elem_of_entriesUnder in Hin as (? & ? & model & _ & _ & _ & _ & ->).
    exact (active_prepared model m).
Qed.

(** On two services: a rate limiter at 2 per second and a pool of 3
    permits. *)
Lemma governor_mode_by_priority_witness :
  ∃ idx, @createModelToServiceMap fixtures.listedRange fixtures.twoServices = Some idx
    ∧ ∃ a b, idx !! "gpt-4" = Some [a; b]
        ∧ (active (ServiceModel a) (RateQPS 2) ∧ ¬ active (ServiceModel a) Unlimited)
        ∧ (active (ServiceModel b) (PermitPool 3) ∧ ¬ active (ServiceModel b) (RateQPM 0)).
Proof.
  destruct (@governor_mode_by_priority fixtures.listedRange fixtures.twoServices)
    as (_ & idx & Hidx & Hmode).
  exists idx. split; [exact Hidx|].
  assert (idx !! "gpt-4"
          = Some [ {| ServiceName := "alpha";
                      ServiceModel :=
                        prepared (fixtures.entry "k1" ["gpt-4"] true (fixtures.limitOf 2 0 0 0)) |};
                   {| ServiceName := "beta";
                      ServiceModel :=
                        prepared (fixtures.entry "k3" ["gpt-4"; "glm"] true
                                    (fixtures.limitOf 0 0 3 30)) |} ]) as Hlook.
  { revert Hidx. vm_compute. intros [= <-]. reflexivity. }
  eexists _, _. split; [exact Hlook|]. split; split.
  - eapply Hmode; [exact Hlook | by left | reflexivity].
  - intros Hno. eapply Hmode in Hno; [discriminate Hno | exact Hlook | by left].
  - eapply Hmode; [exact Hlook | by right; left | reflexivity].
  - intros Hno. eapply Hmode in Hno; [discriminate Hno | exact Hlook | by right; left].
Defined.

(** C9: the timeout of every enabled entry processed at build time is its
    configured [limit.timeout] when that is positive, and 10 otherwise.
    This holds of the copy prepared for each entry and of every detail the
    index holds. *)
Theorem effective_timeout `{MapRange} (config : Configuration.t) :
  (∀ model, ∃ model', prepare model = Some model'
      ∧ ((0 < Limit.Timeout (ServiceModel.Limit model))%Z →
           ServiceModel.Timeout model' = Limit.Timeout (ServiceModel.Limit model))
      ∧ ((Limit.Timeout (ServiceModel.Limit model) ≤ 0)%Z →
           ServiceModel.Timeout model' = 10%Z))
  ∧ ∃ idx, createModelToServiceMap config = Some idx
      ∧ ∀ M details d, idx !! M = Some details → d ∈ details →
          ((0 < Limit.Timeout (ServiceModel.Limit (ServiceModel d)))%Z →
             ServiceModel.Timeout (ServiceModel d)
             = Limit.Timeout (ServiceModel.Limit (ServiceModel d)))
          ∧ ((Limit.Timeout (ServiceModel.Limit (ServiceModel d)) ≤ 0)%Z →
               ServiceModel.Timeout (ServiceModel d) = 10%Z).
Proof.
  assert (∀ model,
    ((0 < Limit.Timeout (ServiceModel.Limit model))%Z →
       ServiceModel.Timeout (prepared model) = Limit.Timeout (ServiceModel.Limit model))
    ∧ ((Limit.Timeout (ServiceModel.Limit model) ≤ 0)%Z →
         ServiceModel.Timeout (prepared model) = 10%Z)) as Htimeout.
  { intros model. unfold prepared, newTimeout, defaultLimitTimeout. simpl.
    destruct (Z.ltb_spec 0 (Limit.Timeout (ServiceModel.Limit model))); split; intros; lia. }
  split.
  - intros model. exists (prepared model). split; [apply prepare_returns|]. apply Htimeout.
  - destruct (createModelToServiceMap_returns config) as (idx & Hidx & Hpop & Hunder).
    exists idx. split; [done|]. intros M details d Hsome Hd.
    assert (d ∈ idx !!! M) as Hin by (by rewrite lookup_total_alt, Hsome).
    rewrite Hunder in Hin.
    apply elem_of_entriesUnder in Hin as (? & ? & model & _ & _ & _ & _ & ->).
    exact (Htimeout model).
Qed.

(** On two services: the default of 10 and a configured 30. *)
Lemma effective_timeout_witness :
  ∃ idx, @createModelToServiceMap fixtures.listedRange fixtures.twoServices = Some idx
    ∧ ∃ a b, idx !! "gpt-4" = Some [a; b]
        ∧ ServiceModel.Timeout (ServiceModel a) = 10%Z
        ∧ ServiceModel.Timeout (ServiceModel b) = 30%Z.
Proof.
  destruct (@effective_timeout fixtures.listedRange fixtures.twoServices)
    as (_ & idx & Hidx & Htimeout).
  exists idx. split; [exact Hidx|].
  assert (idx !! "gpt-4"
          = Some [ {| ServiceName := "alpha";
                      ServiceModel :=
                        prepared (fixtures.entry "k1" ["gpt-4"] true (fixtures.limitOf 2 0 0 0)) |};
                   {| ServiceName := "beta";
                      ServiceModel :=
                        prepared (fixtures.entry "k3" ["gpt-4"; "glm"] true
                                    (fixtures.limitOf 0 0 3 30)) |} ]) as Hlook.
  { revert Hidx. vm_compute. intros [= <-]. reflexivity. }
  eexists _, _. split; [exact Hlook|]. split.
  - refine (proj2 (Htimeout "gpt-4" _ _ Hlook _) _); [by left | by vm_compute].
  - refine (proj1 (Htimeout "gpt-4" _ _ Hlook _) _); [by right; left | by vm_compute].
Defined.

End GovernorTheorems.

Section StartupTheorems.
Import config registry.

(** What [InitConfig] leaves behind once the document was read: it returns
    [nil] whatever [json.Unmarshal] said, the strategy is "random" for an
    empty name and the configured name otherwise, and the index is the one
    [createModelToServiceMap] builds. *)
Lemma InitConfig_after_read `{MapRange, Host} (configName path data : string) (g0 : Globals) :
  ResolveRelativePathToAbsolute
    (if (configName =? "")%string then "config.json" else configName) = inl path →
  ReadFile path = inl data →
  ∃ g, InitConfig configName g0 = Some (g, None)
       ∧ LoadBalancingStrategy g
         = (if (Configuration.LoadBalancing (Unmarshal data).1 =? "")%string then "random"
            else Configuration.LoadBalancing (Unmarshal data).1)
       ∧ createModelToServiceMap (Unmarshal data).1 = Some (ModelToService g).
Proof.
  intros Hpath Hdata. unfold InitConfig. rewrite Hpath, Hdata.
  destruct (createModelToServiceMap_returns (Unmarshal data).1) as (idx & Hidx & _).
  rewrite Hidx. simpl. eexists. split; [reflexivity|]. by split.
Qed.

(** C4, the behaviour of the code: when the document cannot be read,
    [InitConfig] returns the error of the read and leaves the package
    variables alone; when the document is read and [json.Unmarshal] rejects
    it, [InitConfig] still returns [nil]. *)
Theorem InitConfig_malformed_returns_nil `{MapRange, Host}
    (configName path : string) (g0 : Globals) :
  ResolveRelativePathToAbsolute
    (if (configName =? "")%string then "config.json" else configName) = inl path →
  (∀ err, ReadFile path = inr err → InitConfig configName g0 = Some (g0, Some err))
  ∧ (∀ data err, ReadFile path = inl data → (Unmarshal data).2 = Some err →
       ∃ g, InitConfig configName g0 = Some (g, None)).
Proof.
  intros Hpath. split.
  - intros err Hread. unfold InitConfig. by rewrite Hpath, Hread.
  - intros data err Hread _.
    destruct (InitConfig_after_read configName path data g0 Hpath Hread) as (g & Hg & _).
    by exists g.
Qed.

(** On a document that is a lone opening brace: no error, an empty index
    and the defaults. *)
Lemma InitConfig_malformed_returns_nil_witness :
  @InitConfig fixtures.listedRange fixtures.brokenHost "" fixtures.zeroGlobals
  = Some ({| ModelToService := ∅; LoadBalancingStrategy := "random";
             ServerPort := ":9090"; APIKey := ""; Debug := false |}, None).
Proof.
  destruct (@InitConfig_malformed_returns_nil fixtures.listedRange fixtures.brokenHost
              "" "/srv/config.json" fixtures.zeroGlobals eq_refl) as [_ Hmalformed].
  destruct (Hmalformed "{" "unexpected end of JSON input" eq_refl eq_refl) as [g Hg].
  by vm_compute.
Defined.

(** C8: after [InitConfig] has read a document whose strategy name is
    empty or is any name other than "first" (so also any name other than
    "first" and "random"), [GetModelService] on a model with enabled
    entries does exactly what it does under "random": it returns the
    enabled entry at the index [rand.Intn] draws, so the result is one of
    the enabled entries, and every enabled entry is returned for some
    draw. *)
Theorem unrecognized_strategy_is_random `{MapRange, Host}
    (configName path data : string) (g0 : Globals) :
  ResolveRelativePathToAbsolute
    (if (configName =? "")%string then "config.json" else configName) = inl path →
  ReadFile path = inl data →
  Configuration.LoadBalancing (Unmarshal data).1 ≠ "first" →
  ∃ g, InitConfig configName g0 = Some (g, None)
    ∧ ∀ M, enabledUnder g M ≠ [] →
        (∀ R : RandSource,
           @GetModelService R g M = @GetModelService R (withStrategy g "random") M
           ∧ ∃ sd, @GetModelService R g M = Some (inl sd) ∧ sd ∈ enabledUnder g M)
        ∧ (∀ sd, sd ∈ enabledUnder g M →
             ∃ R : RandSource, @GetModelService R g M = Some (inl sd)).
Proof.
  intros Hpath Hdata Hname.
  destruct (InitConfig_after_read configName path data g0 Hpath Hdata) as (g & Hg & Hstrategy & _).
  exists g. split; [done|]. intros M Hen.
  assert ((LoadBalancingStrategy g =? "first")%string = false) as Hfirst.
  { apply String.eqb_neq. rewrite Hstrategy. case_match; [done|]. done. }
  assert (∀ R : RandSource,
            @GetModelService R g M
            = inl <$> enabledUnder g M !! @Intn R (length (enabledUnder g M))) as Hdraw.
  { intros R. rewrite GetModelService_draw by done. by rewrite Hfirst. }
  split.
  - intros R. split.
    + rewrite Hdraw. rewrite (GetModelService_draw (withStrategy g "random") M) by done.
      done.
    + rewrite Hdraw.
      assert (@Intn R (length (enabledUnder g M)) < length (enabledUnder g M)) as Hk.
      { apply Intn_range. destruct (enabledUnder g M); [done | simpl; lia]. }
      apply lookup_lt_is_Some_2 in Hk as [sd Hsd]. exists sd. rewrite Hsd.
      split; [done|]. by apply list_elem_of_lookup_2 in Hsd.
  - intros sd Hsd. apply list_elem_of_lookup_1 in Hsd as [i Hi].
    assert (∀ n, 0 < n → (if decide (i < n) then i else 0) < n) as Hrange.
    { intros n Hn. case_decide; done. }
    exists {| Intn := λ n, if decide (i < n) then i else 0; Intn_range := Hrange |}.
    rewrite Hdraw. simpl.
    rewrite decide_True by (by apply lookup_lt_Some in Hi). by rewrite Hi.
Qed.

(** On a document that names the strategy "round-robin". *)
Lemma unrecognized_strategy_is_random_witness :
  ∃ g, @InitConfig fixtures.listedRange fixtures.goodHost "" fixtures.zeroGlobals
         = Some (g, None)
    ∧ LoadBalancingStrategy g = "round-robin"
    ∧ length (enabledUnder g "gpt-4") = 2
    ∧ @GetModelService fixtures.drawLast g "gpt-4"
      = @GetModelService fixtures.drawLast (withStrategy g "random") "gpt-4"
    ∧ ∀ sd, sd ∈ enabledUnder g "gpt-4" →
        ∃ R : RandSource, @GetModelService R g "gpt-4" = Some (inl sd).
Proof.
  destruct (@unrecognized_strategy_is_random fixtures.listedRange fixtures.goodHost
              "" "/srv/config.json" "{...}" fixtures.zeroGlobals eq_refl eq_refl)
    as (g & Hg & Hrandom).
  { by vm_compute. }
  exists g. split; [exact Hg|].
  assert (LoadBalancingStrategy g = "round-robin" ∧ length (enabledUnder g "gpt-4") = 2)
    as [Hname Hlen].
  { revert Hg. vm_compute. intros [= <-]. by split. }
  split; [exact Hname|]. split; [exact Hlen|].
  destruct (Hrandom "gpt-4") as [Hsame Hevery].
  { intros Hnil. by rewrite Hnil in Hlen. }
  split; [apply Hsame | exact Hevery].
Defined.

End StartupTheorems.

(** * Properties of the handler *)

Section HandlerLemmas.
Import handler stream.
Context `{adapter.Conversions, json.Codec}.

Lemma substring_whole (s : string) : String.substring 0 (String.length s) s = s.
Proof. induction s as [|a s IH]; [done|]. simpl. by rewrite IH. Qed.

Lemma HasPrefix_data (payload : string) :
  strings.HasPrefix ("data:" +:+ payload) "data:" = true.
Proof. reflexivity. Qed.

Lemma TrimPrefix_data (payload : string) :
  strings.TrimPrefix ("data:" +:+ payload) "data:" = payload.
Proof.
  unfold strings.TrimPrefix. rewrite HasPrefix_data. simpl.
  rewrite Nat.sub_0_r. apply substring_whole.
Qed.

Lemma written_app (es1 es2 : list gin.effect) :
  gin.written (es1 ++ es2) = gin.written es1 ++ gin.written es2.
Proof.
  induction es1 as [|e es1 IH]; [done|]. destruct e; simpl; by rewrite ?IH.
Qed.

Lemma written_writeString (c : gin.Context) (s : string) :
  gin.written (gin.done (gin.writeString c s).1) = gin.written (gin.done c) ++ [s].
Proof.
  unfold gin.writeString. destruct (gin.faults c); simpl; by rewrite written_app.
Qed.

Lemma written_record_Flush (c : gin.Context) :
  gin.written (gin.done (gin.record c gin.Flush)) = gin.written (gin.done c).
Proof. unfold gin.record. simpl. rewrite written_app. simpl. by rewrite app_nil_r. Qed.

(** One round of the loop on a line that carries a frame of a known
    kind. *)
Lemma handleLine_frame oaiReq c line f (encode : cozecn.StreamResponse.t → string) :
  carries line f → known f →
  (content f → json.MarshalStreamResponse (canonical oaiReq f) = inl (encode f)) →
  handleLine oaiReq c line
  = if (cozecn.StreamResponse.Event f =? "message")%string then
      if (cozecn.Message.Type_ (cozecn.StreamResponse.Message f) =? "verbose")%string
      then (c, Next)
      else (gin.record (gin.writeString c (dataFrame (encode f))).1 gin.Flush, Next)
    else if (cozecn.StreamResponse.Event f =? "done")%string then (c, Return None)
    else (c, Return (Some (BackendError
            (cozecn.ErrorInformation.Code (cozecn.StreamResponse.ErrorInformation f))
            (cozecn.ErrorInformation.Msg (cozecn.StreamResponse.ErrorInformation f))))).
Proof.
  intros (payload & -> & Hdecode) Hknown Hencode. unfold handleLine.
  rewrite HasPrefix_data, TrimPrefix_data, Hdecode.
  destruct (String.eqb_spec (cozecn.StreamResponse.Event f) "message") as [Hmsg|Hmsg].
  - destruct (String.eqb_spec (cozecn.Message.Type_ (cozecn.StreamResponse.Message f))
                "verbose") as [Hv|Hv]; [done|].
    unfold canonical in Hencode. by rewrite Hencode.
  - destruct (String.eqb_spec (cozecn.StreamResponse.Event f) "done") as [Hdone|Hdone]; [done|].
    destruct Hknown as [?|[?|Herr]]; [done|done|]. by rewrite Herr.
Qed.

(** The loop over lines that carry frames of the known kinds does what the
    specification's translator says. *)
Lemma scanLoop_translate oaiReq (encode : cozecn.StreamResponse.t → string) lines frames :
  Forall2 carries lines frames →
  Forall known frames →
  Forall (λ f, content f → json.MarshalStreamResponse (canonical oaiReq f) = inl (encode f))
    frames →
  ∀ c, gin.written (gin.done (scanLoop oaiReq c lines).1)
       = gin.written (gin.done c) ++ (translate (λ f, dataFrame (encode f)) frames).1
     ∧ (scanLoop oaiReq c lines).2
       = match (translate (λ f, dataFrame (encode f)) frames).2 with
         | Open => Next
         | e => Return (outcome e None)
         end.
Proof.
  induction 1 as [|line f lines frames Hline _ IH]; intros Hknown Hencode c.
  - simpl. by rewrite app_nil_r.
  - apply Forall_cons in Hknown as [Hf Hknown]. apply Forall_cons in Hencode as [Hef Hencode].
    cbn [scanLoop translate]. rewrite (handleLine_frame oaiReq c line f encode) by done.
    destruct (cozecn.StreamResponse.Event f =? "message")%string.
    + destruct (cozecn.Message.Type_ (cozecn.StreamResponse.Message f) =? "verbose")%string.
      * by apply IH.
      * destruct (IH Hknown Hencode
                    (gin.record (gin.writeString c (dataFrame (encode f))).1 gin.Flush))
          as [Hout Hend].
        rewrite Hout, Hend, written_record_Flush, written_writeString. simpl.
        by rewrite <- app_assoc.
    + destruct (cozecn.StreamResponse.Event f =? "done")%string; simpl;
        by rewrite app_nil_r.
Qed.

Lemma scanLoop_app oaiReq c (lines1 lines2 : list string) :
  scanLoop oaiReq c (lines1 ++ lines2)
  = match scanLoop oaiReq c lines1 with
    | (c', Next) => scanLoop oaiReq c' lines2
    | (c', Return err) => (c', Return err)
    end.
Proof.
  revert c. induction lines1 as [|line lines1 IH]; intros c; [done|].
  simpl. destruct (handleLine oaiReq c line) as [c' [|err]]; [apply IH | done].
Qed.

(** Lines without the marker do not count: the loop runs as on the data
    lines alone. *)
Lemma scanLoop_dataLines oaiReq c (lines : list string) :
  scanLoop oaiReq c lines = scanLoop oaiReq c (dataLines lines).
Proof.
  revert c. induction lines as [|line lines IH]; intros c; [done|].
  unfold dataLines. rewrite filter_cons.
  destruct (decide (strings.HasPrefix line "data:" = true)) as [Hdata|Hdata].
  - cbn [scanLoop]. destruct (handleLine oaiReq c line) as [c' [|err]]; [apply IH | done].
  - cbn [scanLoop]. unfold handleLine at 1. apply not_true_is_false in Hdata.
    rewrite Hdata. apply IH.
Qed.

End HandlerLemmas.

Section HandlerTheorems.
Import handler stream.

(** C3: on a body whose data lines carry frames of the kinds message,
    done and error (lines without the marker may come in between),
    [handleCozecnStreamResponse] hands to the writer exactly the chunks the
    specification's translator lists (none for a verbose message, one per
    other message, in order, none after a done or an error frame), and it
    returns [nil] at a done frame and the error carrying the frame's code
    and message at an error frame. *)
Theorem stream_translation `{adapter.Conversions, json.Codec}
    (c : gin.Context) (oaiReq : openai.ChatCompletionRequest.t) (body : io.Reader)
    (frames : list cozecn.StreamResponse.t) (encode : cozecn.StreamResponse.t → string) :
  Forall2 carries (dataLines (io.Lines body)) frames →
  Forall known frames →
  Forall (λ f, content f → json.MarshalStreamResponse (canonical oaiReq f) = inl (encode f))
    frames →
  gin.written (gin.done (handleCozecnStreamResponse c oaiReq body).1)
  = gin.written (gin.done c) ++ (translate (λ f, dataFrame (encode f)) frames).1
  ∧ (handleCozecnStreamResponse c oaiReq body).2
    = outcome (translate (λ f, dataFrame (encode f)) frames).2 (io.ScanErr body).
Proof.
  intros Hlines Hknown Hencode. unfold handleCozecnStreamResponse.
  rewrite scanLoop_dataLines.
  destruct (scanLoop_translate oaiReq encode _ _ Hlines Hknown Hencode
              (gin.record c gin.EventStreamHeaders)) as [Hout Hend].
  assert (gin.written (gin.done (gin.record c gin.EventStreamHeaders))
          = gin.written (gin.done c)) as Hheaders.
  { unfold gin.record. simpl. rewrite written_app. simpl. by rewrite app_nil_r. }
  rewrite Hheaders in Hout.
  destruct (scanLoop oaiReq (gin.record c gin.EventStreamHeaders)
              (dataLines (io.Lines body))) as [c' fl].
  destruct (translate (λ f, dataFrame (encode f)) frames) as [chunks e].
  cbn [fst snd] in *. subst fl.
  destruct e; cbn [outcome]; [|done|done].
  by destruct (io.ScanErr body).
Qed.

(** The two streams of section 8, with blank lines between the frames:
    message A, verbose message, message B, done; and message A, error 7 "x". *)
Lemma stream_translation_witness :
  (gin.written (gin.done (@handleCozecnStreamResponse samples.conversions samples.codec
       (samples.context []) (samples.request true)
       (samples.streamed ["data:<A>"; ""; "data:<V>"; ""; "data:<B>"; ""; "data:<done>"; ""])).1)
   = [dataFrame "gpt-4|Hel"; dataFrame "gpt-4|lo"]
   ∧ (@handleCozecnStreamResponse samples.conversions samples.codec
       (samples.context []) (samples.request true)
       (samples.streamed ["data:<A>"; ""; "data:<V>"; ""; "data:<B>"; ""; "data:<done>"; ""])).2 = None)
  ∧ (gin.written (gin.done (@handleCozecnStreamResponse samples.conversions samples.codec
       (samples.context []) (samples.request true)
       (samples.streamed ["data:<A>"; "data:<error>"])).1)
     = [dataFrame "gpt-4|Hel"]
     ∧ (@handleCozecnStreamResponse samples.conversions samples.codec
       (samples.context []) (samples.request true)
       (samples.streamed ["data:<A>"; "data:<error>"])).2 = Some (BackendError 7 "x")).
Proof.
  split.
  - apply (@stream_translation samples.conversions samples.codec
             (samples.context []) (samples.request true)
             (samples.streamed ["data:<A>"; ""; "data:<V>"; ""; "data:<B>"; ""; "data:<done>"; ""])
             [samples.frameA; samples.frameV; samples.frameB; samples.frameDone]
             (λ f, "gpt-4|" +:+ cozecn.Message.Content (cozecn.StreamResponse.Message f))).
    + constructor; [by exists "<A>"|]. constructor; [by exists "<V>"|].
      constructor; [by exists "<B>"|]. constructor; [by exists "<done>"|]. constructor.
    + repeat (constructor; [unfold known; simpl; by auto|]). constructor.
    + repeat (constructor; [done|]). constructor.
  - apply (@stream_translation samples.conversions samples.codec
             (samples.context []) (samples.request true)
             (samples.streamed ["data:<A>"; "data:<error>"])
             [samples.frameA; samples.frameError]
             (λ f, "gpt-4|" +:+ cozecn.Message.Content (cozecn.StreamResponse.Message f))).
    + constructor; [by exists "<A>"|]. constructor; [by exists "<error>"|]. constructor.
    + repeat (constructor; [unfold known; simpl; by auto|]). constructor.
    + repeat (constructor; [done|]). constructor.
Defined.

(** C6: when the body of a non-streaming response is read and decoded,
    [handleCozecnResponse] fails with the error carrying the envelope's code
    and message if the code is not 0, and otherwise answers 200 with the
    adapter's completion whose model is the model of the inbound request. *)
Theorem handleCozecnResponse_envelope `{adapter.Conversions, json.Codec}
    (c : gin.Context) (resp : http.Response) (oaiReq : openai.ChatCompletionRequest.t)
    (body : string) (respJson : cozecn.Response.t) :
  openai.ChatCompletionRequest.Stream oaiReq = false →
  io.ReadAll (http.Body resp) = inl body →
  json.UnmarshalResponse body = inl respJson →
  (cozecn.Response.Code respJson ≠ 0%Z →
     handleCozecnResponse c resp oaiReq
     = (c, Some (BackendError (cozecn.Response.Code respJson) (cozecn.Response.Msg respJson))))
  ∧ (cozecn.Response.Code respJson = 0%Z →
       ∃ completion,
         handleCozecnResponse c resp oaiReq
         = (gin.record c (gin.JSON 200 completion), None)
         ∧ openai.ChatCompletionResponse.Model completion
           = openai.ChatCompletionRequest.Model oaiReq
         ∧ openai.ChatCompletionResponse.ID completion
           = openai.ChatCompletionResponse.ID (adapter.CozecnReponseToOpenAIResponse respJson)
         ∧ openai.ChatCompletionResponse.Choices completion
           = openai.ChatCompletionResponse.Choices
               (adapter.CozecnReponseToOpenAIResponse respJson)).
Proof.
  intros Hsync Hread Hdecode. unfold handleCozecnResponse.
  rewrite Hsync, Hread, Hdecode. split.
  - intros Hcode. apply Z.eqb_neq in Hcode. by rewrite Hcode.
  - intros Hcode. rewrite Hcode. simpl. eexists. split; [reflexivity|]. done.
Qed.

(** On an envelope with code 702 and on one with code 0. *)
Lemma handleCozecnResponse_envelope_witness :
  @handleCozecnResponse samples.conversions samples.codec (samples.context [])
    {| http.Body := samples.whole "<denied>" |} (samples.request false)
  = (samples.context [], Some (BackendError 702 "bot not published"))
  ∧ ∃ completion,
      @handleCozecnResponse samples.conversions samples.codec (samples.context [])
        {| http.Body := samples.whole "<success>" |} (samples.request false)
      = (gin.record (samples.context []) (gin.JSON 200 completion), None)
      ∧ openai.ChatCompletionResponse.Model completion = "gpt-4".
Proof.
  split.
  - apply (@handleCozecnResponse_envelope samples.conversions samples.codec
             (samples.context []) {| http.Body := samples.whole "<denied>" |}
             (samples.request false) "<denied>" (samples.envelope 702 "bot not published")
             eq_refl eq_refl eq_refl).
    done.
  - destruct (@handleCozecnResponse_envelope samples.conversions samples.codec
                (samples.context []) {| http.Body := samples.whole "<success>" |}
                (samples.request false) "<success>" (samples.envelope 0 "success")
                eq_refl eq_refl eq_refl) as [_ Hok].
    destruct (Hok eq_refl) as (completion & Hrun & Hmodel & _).
    exists completion. by split.
Defined.

(** C7, the behaviour of the code: when the write of a chunk fails, the
    loop records the failed write, flushes, and goes on with the lines
    that follow exactly as after a write that succeeded. *)
Theorem failed_write_goes_on `{adapter.Conversions, json.Codec}
    (oaiReq : openai.ChatCompletionRequest.t) (c : gin.Context) (line payload : string)
    (f : cozecn.StreamResponse.t) (err : error) (later : list (option error))
    (rest : list string) :
  carries line f → content f →
  json.MarshalStreamResponse (canonical oaiReq f) = inl payload →
  gin.faults c = Some err :: later →
  scanLoop oaiReq c (line :: rest)
  = scanLoop oaiReq
      {| gin.done := gin.done c ++ [gin.WriteString (dataFrame payload) (Some err); gin.Flush];
         gin.faults := later |} rest.
Proof.
  intros Hline [Hmsg Hverbose] Hencode Hfaults. cbn [scanLoop].
  rewrite (handleLine_frame oaiReq c line f (λ _, payload)); [|done|by left|done].
  apply String.eqb_eq in Hmsg. apply String.eqb_neq in Hverbose.
  rewrite Hmsg, Hverbose. unfold gin.writeString, gin.record. rewrite Hfaults. simpl.
  by rewrite <- app_assoc.
Qed.

(** Two message frames and a consumer whose first write fails: the second
    chunk is written all the same and the handler returns [nil]. *)
Lemma failed_write_goes_on_witness :
  @handleCozecnStreamResponse samples.conversions samples.codec
    (samples.context [Some "broken pipe"]) (samples.request true)
    (samples.streamed ["data:<A>"; "data:<B>"])
  = ({| gin.done := [ gin.EventStreamHeaders;
                      gin.WriteString (dataFrame "gpt-4|Hel") (Some "broken pipe");
                      gin.Flush;
                      gin.WriteString (dataFrame "gpt-4|lo") None;
                      gin.Flush ];
        gin.faults := [] |}, None).
Proof.
  unfold handleCozecnStreamResponse, samples.streamed. cbn [io.Lines io.ScanErr].
  rewrite (@failed_write_goes_on samples.conversions samples.codec (samples.request true)
             (gin.record (samples.context [Some "broken pipe"]) gin.EventStreamHeaders)
             "data:<A>" "gpt-4|Hel" samples.frameA "broken pipe" [] ["data:<B>"]).
  - reflexivity.
  - by exists "<A>".
  - by split.
  - reflexivity.
  - reflexivity.
Defined.

(** C10: a line that does not begin with "data:" is skipped: the round of
    the loop leaves the context as it was and goes on to the next line, so
    the response is handled as if the line were not there. *)
Theorem unmarked_line_skipped `{adapter.Conversions, json.Codec} (line : string) :
  strings.HasPrefix line "data:" = false →
  (∀ oaiReq c, handleLine oaiReq c line = (c, Next))
  ∧ ∀ c oaiReq body before after,
      io.Lines body = before ++ line :: after →
      handleCozecnStreamResponse c oaiReq body
      = handleCozecnStreamResponse c oaiReq (withLines body (before ++ after)).
Proof.
  intros Hline.
  assert (∀ oaiReq c, handleLine oaiReq c line = (c, Next)) as Hskip.
  { intros oaiReq c. unfold handleLine. by rewrite Hline. }
  split; [done|]. intros c oaiReq body before after Hbody.
  unfold handleCozecnStreamResponse. simpl. rewrite Hbody, !scanLoop_app.
  destruct (scanLoop oaiReq (gin.record c gin.EventStreamHeaders) before) as [c' [|err]];
    [|done].
  cbn [scanLoop]. by rewrite Hskip.
Qed.

(** A blank line between two frames changes nothing. *)
Lemma unmarked_line_skipped_witness :
  @handleCozecnStreamResponse samples.conversions samples.codec
    (samples.context []) (samples.request true)
    (samples.streamed ["data:<A>"; ""; "data:<done>"])
  = @handleCozecnStreamResponse samples.conversions samples.codec
      (samples.context []) (samples.request true)
      (samples.streamed ["data:<A>"; "data:<done>"]).
Proof.
  apply (proj2 (@unmarked_line_skipped samples.conversions samples.codec "" eq_refl)
           (samples.context []) (samples.request true)
           (samples.streamed ["data:<A>"; ""; "data:<done>"]) ["data:<A>"] ["data:<done>"]).
  reflexivity.
Defined.

End HandlerTheorems.

(** * Further properties of the registry *)

Section IndexFurther.
Import config registry.

(** X1: the index does not depend on the order in which the services are
    visited, except for the order of the details under a name: two builds
    of one configuration bind the same names, each to the same details up
    to a permutation. *)
Theorem index_up_to_order (first second : MapRange) (config : Configuration.t) :
  ∃ idx1 idx2,
    @createModelToServiceMap first config = Some idx1
    ∧ @createModelToServiceMap second config = Some idx2
    ∧ ∀ M, (idx1 !! M = None ↔ idx2 !! M = None) ∧ idx1 !!! M ≡ₚ idx2 !!! M.
Proof.
  destruct (@createModelToServiceMap_returns first config) as (idx1 & Hidx1 & Hpop1 & Hunder1).
  destruct (@createModelToServiceMap_returns second config) as (idx2 & Hidx2 & Hpop2 & Hunder2).
  exists idx1, idx2. split; [done|]. split; [done|]. intros M.
  assert (idx1 !!! M ≡ₚ idx2 !!! M) as Hperm.
  { rewrite Hunder1, Hunder2. unfold entriesUnder.
    apply bind_Permutation. by rewrite !range_perm. }
  split; [|done].
  destruct (populated_lookup idx1 M Hpop1) as [Hnone1 Hsome1].
  destruct (populated_lookup idx2 M Hpop2) as [Hnone2 Hsome2].
  split; intros Hnone.
  - apply Hnone2. apply Permutation_nil_r.
    rewrite <- Hperm. by rewrite lookup_total_alt, Hnone.
  - apply Hnone1. apply Permutation_nil_r.
    rewrite Hperm. by rewrite lookup_total_alt, Hnone.
Qed.

(** Every detail of the index is the prepared copy of an enabled entry
    declared under its service. *)
Lemma indexed_detail `{MapRange} (config : Configuration.t)
    (idx : gmap string (list ModelDetails)) (M : string) (details : list ModelDetails)
    (d : ModelDetails) :
  createModelToServiceMap config = Some idx →
  idx !! M = Some details → d ∈ details →
  ∃ serviceModels model,
    Configuration.Services config !! ServiceName d = Some serviceModels
    ∧ model ∈ serviceModels ∧ ServiceModel.Enabled model = true
    ∧ M ∈ ServiceModel.Models model
    ∧ ServiceModel d = prepared model.
Proof.
  intros Hbuilt Hsome Hd.
  destruct (createModelToServiceMap_returns config) as (idx' & Hidx & _ & Hunder).
  rewrite Hbuilt in Hidx. injection Hidx as <-.
  assert (d ∈ idx !!! M) as Hin by (by rewrite lookup_total_alt, Hsome).
  rewrite Hunder in Hin.
  apply elem_of_entriesUnder in Hin
    as (serviceName & serviceModels & model & Hsvc & Hmodel & Hen & Hname & ->).
  by exists serviceModels, model.
Qed.



(** X3: on an index that [createModelToServiceMap] built, [GetModelService]
    never answers "no enabled model": it answers "not found" for a name
    that no enabled entry declares, and for any other name it returns one
    of the details that [GetAllModelService] lists under the name. *)
Theorem GetModelService_on_built_index `{MapRange, RandSource}
    (config : Configuration.t) (g : Globals) (M : string) :
  createModelToServiceMap config = Some (ModelToService g) →
  (¬ declaredEnabled config M → GetModelService g M = Some (inr (NotFound M)))
  ∧ (declaredEnabled config M →
       ∃ sd details, GetModelService g M = Some (inl sd)
                     ∧ GetAllModelService g M = inl details ∧ sd ∈ details)
  ∧ GetModelService g M ≠ Some (inr (NoEnabledService M)).
Proof.
  intros Hbuilt.
  destruct (createModelToServiceMap_returns config) as (idx & Hidx & Hpop & Hunder).
  rewrite Hbuilt in Hidx. injection Hidx as <-.
  destruct (populated_lookup _ M Hpop) as [Hnone Hsome]. rewrite Hunder in Hnone, Hsome.
  pose proof (entriesUnder_nil config M) as Hnil.
  assert (ModelToService g !! M = None →
            GetModelService g M = Some (inr (NotFound M))) as Habsent.
  { intros Hlook. unfold GetModelService. by rewrite Hlook. }
  assert (declaredEnabled config M →
            ∃ sd details, GetModelService g M = Some (inl sd)
                          ∧ GetAllModelService g M = inl details ∧ sd ∈ details) as Hserved.
  { intros Hdecl.
    assert (entriesUnder M (range (Configuration.Services config)) ≠ []) as Hne.
    { intros Hempty. by apply Hnil in Hempty. }
    specialize (Hsome Hne).
    assert (0 < length (enabledUnder g M)) as Hlen.
    { unfold enabledUnder. rewrite lookup_total_alt, Hsome. simpl.
      apply filter_enabled_cons.
      destruct (entriesUnder M (range (Configuration.Services config))) as [|d l] eqn:Hl;
        [done|].
      apply Exists_cons_hd.
      assert (d ∈ entriesUnder M (range (Configuration.Services config))) as Hd
        by (rewrite Hl; by left).
      apply elem_of_entriesUnder in Hd as (? & ? & model & _ & _ & Hen & _ & ->). exact Hen. }
    rewrite GetModelService_draw by (intros Hempty; rewrite Hempty in Hlen; simpl in Hlen; lia).
    set (k := if (LoadBalancingStrategy g =? "first")%string then 0
              else Intn (length (enabledUnder g M))).
    assert (k < length (enabledUnder g M)) as Hk.
    { unfold k. case_match; [done|]. by apply Intn_range. }
    apply lookup_lt_is_Some_2 in Hk as [sd Hsd]. rewrite Hsd.
    exists sd, (entriesUnder M (range (Configuration.Services config))).
    split; [done|]. split.
    - unfold GetAllModelService. by rewrite Hsome.
    - apply list_elem_of_lookup_2 in Hsd. unfold enabledUnder in Hsd.
      apply list_elem_of_filter in Hsd as [_ Hsd].
      by rewrite lookup_total_alt, Hsome in Hsd. }
  assert (entriesUnder M (range (Configuration.Services config)) ≠ [] →
            declaredEnabled config M) as Hdeclared.
  { intros Hne.
    destruct (entriesUnder M (range (Configuration.Services config))) as [|d l] eqn:Hl;
      [done|].
    assert (d ∈ entriesUnder M (range (Configuration.Services config))) as Hd
      by (rewrite Hl; by left).
    apply elem_of_entriesUnder in Hd
      as (serviceName & serviceModels & model & Hsvc & Hmodel & Hen & Hname & _).
    by exists serviceName, serviceModels, model. }
  split; [|split].
  - intros Hno. apply Habsent, Hnone. by apply Hnil.
  - exact Hserved.
  - destruct (decide (entriesUnder M (range (Configuration.Services config)) = []))
      as [Hempty|Hne].
    + rewrite Habsent by (by apply Hnone). unfold NotFound, NoEnabledService.
      intros Heq. discriminate Heq.
    + destruct (Hserved (Hdeclared Hne)) as (sd & ? & Hsd & _).
      rewrite Hsd. intros Heq. discriminate Heq.
Qed.

(** On two services: "gpt-4" is served, "gpt-3.5" is not found. *)
Lemma GetModelService_on_built_index_witness :
  ∃ g, @createModelToServiceMap fixtures.listedRange fixtures.twoServices
         = Some (ModelToService g)
    ∧ @GetModelService fixtures.drawLast g "gpt-3.5" = Some (inr (NotFound "gpt-3.5"))
    ∧ ∃ sd details, @GetModelService fixtures.drawLast g "gpt-4" = Some (inl sd)
                    ∧ GetAllModelService g "gpt-4" = inl details ∧ sd ∈ details.
Proof.
  destruct (@createModelToServiceMap_returns fixtures.listedRange fixtures.twoServices)
    as (idx & Hidx & _).
  set (g := {| ModelToService := idx; LoadBalancingStrategy := "random";
               ServerPort := ":9090"; APIKey := ""; Debug := false |}).
  exists g. split; [exact Hidx|].
  destruct (@GetModelService_on_built_index fixtures.listedRange fixtures.drawLast
              fixtures.twoServices g "gpt-3.5" Hidx) as (Hnot & _ & _).
  destruct (@GetModelService_on_built_index fixtures.listedRange fixtures.drawLast
              fixtures.twoServices g "gpt-4" Hidx) as (_ & Hserved & _).
  split.
  - apply Hnot. intros (serviceName & serviceModels & model & Hsvc & Hmodel & Hen & Hname).
    destruct (decide (serviceName = "alpha")) as [->|Hna].
    + vm_compute in Hsvc. injection Hsvc as <-.
      apply elem_of_cons in Hmodel as [->|Hmodel].
      * vm_compute in Hname. by repeat (apply elem_of_cons in Hname as [?|Hname]; [done|]);
          apply elem_of_nil in Hname.
      * apply elem_of_cons in Hmodel as [->|Hmodel]; [done|]. by apply elem_of_nil in Hmodel.
    + destruct (decide (serviceName = "beta")) as [->|Hnb].
      * vm_compute in Hsvc. injection Hsvc as <-.
        apply elem_of_cons in Hmodel as [->|Hmodel]; [|by apply elem_of_nil in Hmodel].
        vm_compute in Hname.
        repeat (apply elem_of_cons in Hname as [?|Hname]; [done|]).
        by apply elem_of_nil in Hname.
      * unfold fixtures.twoServices, fixtures.documentOf in Hsvc. simpl in Hsvc.
        rewrite lookup_insert_ne, lookup_insert_ne, lookup_empty in Hsvc by done. done.
  - apply Hserved.
    exists "beta", [fixtures.entry "k3" ["gpt-4"; "glm"] true (fixtures.limitOf 0 0 3 30)],
      (fixtures.entry "k3" ["gpt-4"; "glm"] true (fixtures.limitOf 0 0 3 30)).
    split; [by vm_compute|]. split; [by left|]. split; [done|]. simpl. by left.
Defined.

(** X4: under the strategy "first" no number is drawn: [GetModelService]
    returns the first enabled detail under the name, whatever the source
    of random numbers. *)
Theorem first_strategy_takes_head (g : Globals) (M : string) (sd : ModelDetails)
    (rest : list ModelDetails) :
  LoadBalancingStrategy g = "first" →
  enabledUnder g M = sd :: rest →
  ∀ R : RandSource, @GetModelService R g M = Some (inl sd).
Proof.
  intros Hfirst Hen R. rewrite GetModelService_draw by (by rewrite Hen).
  by rewrite Hfirst, Hen.
Qed.

(** On an index whose first entry under "gpt-4" is disabled: the second is
    returned, though the source draws the last index. *)
Lemma first_strategy_takes_head_witness :
  ∃ sd, @GetModelService fixtures.drawLast fixtures.mixedGlobals "gpt-4" = Some (inl sd)
        ∧ ServiceName sd = "beta".
Proof.
  eexists. split.
  - apply (first_strategy_takes_head fixtures.mixedGlobals "gpt-4" _ [] eq_refl).
    by vm_compute.
  - reflexivity.
Defined.

End IndexFurther.

Section SamplingFurther.
Import config registry sampling.

Lemma collectEnabled_filter (enabledModels models : list ModelDetails) :
  collectEnabled enabledModels models
  = enabledModels ++ filter (λ d, ServiceModel.Enabled (ServiceModel d) = true) models.
Proof.
  unfold collectEnabled. revert enabledModels.
  induction models as [|d models IH]; intros enabledModels.
  - simpl. by rewrite app_nil_r.
  - simpl. rewrite IH, filter_cons.
    destruct (ServiceModel.Enabled (ServiceModel d)); simpl; [|done].
    by rewrite <- app_assoc.
Qed.

Lemma allEnabled_bind `{IndexRange} (g : Globals) :
  allEnabled g
  = rangeIndex (ModelToService g)
      ≫= (λ kv, filter (λ d, ServiceModel.Enabled (ServiceModel d) = true) kv.2).
Proof.
  unfold allEnabled.
  assert (∀ kvs acc,
            foldl (λ enabledModels (kv : string * list ModelDetails),
                     collectEnabled enabledModels kv.2) acc kvs
            = acc ++ (kvs ≫= (λ kv, filter (λ d, ServiceModel.Enabled (ServiceModel d) = true)
                                       kv.2))) as Hfold.
  { induction kvs as [|kv kvs IH]; intros acc.
    - simpl. by rewrite app_nil_r.
    - simpl. rewrite IH, collectEnabled_filter. by rewrite <- app_assoc. }
  by rewrite Hfold.
Qed.

Lemma elem_of_allEnabled `{IndexRange} (g : Globals) (d : ModelDetails) :
  d ∈ allEnabled g ↔ candidate g d.
Proof.
  rewrite allEnabled_bind, list_elem_of_bind. unfold candidate. split.
  - intros ([M details] & Hd & Hkv). simpl in Hd.
    apply list_elem_of_filter in Hd as [Hen Hd].
    rewrite rangeIndex_perm, elem_of_map_to_list in Hkv. by exists M, details.
  - intros (M & details & Hsome & Hd & Hen). exists (M, details). split.
    + simpl. by apply list_elem_of_filter.
    + by rewrite rangeIndex_perm, elem_of_map_to_list.
Qed.

(** The draw, once some detail is enabled. *)
Lemma GetRandomEnabledModelDetails_draw `{IndexRange, RandSource} (g : Globals) :
  allEnabled g ≠ [] →
  GetRandomEnabledModelDetails g = inl <$> allEnabled g !! Intn (length (allEnabled g)).
Proof.
  intros Hne. unfold GetRandomEnabledModelDetails, randIntn.
  destruct (Nat.eqb_spec (length (allEnabled g)) 0) as [Hlen|_].
  { by apply nil_length_inv in Hlen. }
  simpl. by destruct (allEnabled g !! Intn (length (allEnabled g))).
Qed.

Lemma GetRandomEnabledModelDetails_empty `{IndexRange, RandSource} (g : Globals) :
  allEnabled g = [] → GetRandomEnabledModelDetails g = Some (inr NoEnabledDetails).
Proof. intros Hnil. unfold GetRandomEnabledModelDetails. by rewrite Hnil. Qed.

Lemma GetRandomEnabledModelDetails_some `{IndexRange, RandSource} (g : Globals) :
  allEnabled g ≠ [] →
  ∃ md, GetRandomEnabledModelDetails g = Some (inl md) ∧ md ∈ allEnabled g.
Proof.
  intros Hne. rewrite GetRandomEnabledModelDetails_draw by done.
  assert (Intn (length (allEnabled g)) < length (allEnabled g)) as Hk.
  { apply Intn_range. destruct (allEnabled g); [done | simpl; lia]. }
  apply lookup_lt_is_Some_2 in Hk as [md Hmd]. exists md. rewrite Hmd.
  split; [done|]. by apply list_elem_of_lookup_2 in Hmd.
Qed.

(** The second draw, over the names of a detail that has some. *)
Lemma GetRandomEnabledModelDetailsV1_named `{IndexRange} (first second : RandSource)
    (g : Globals) (md : ModelDetails) :
  @GetRandomEnabledModelDetails _ first g = Some (inl md) →
  ServiceModel.Models (ServiceModel md) ≠ [] →
  ∃ name, GetRandomEnabledModelDetailsV1 first second g = Some (inl (md, name))
          ∧ name ∈ ServiceModel.Models (ServiceModel md).
Proof.
  intros Hdraw Hnames. unfold GetRandomEnabledModelDetailsV1. rewrite Hdraw. simpl.
  unfold randIntn.
  destruct (Nat.eqb_spec (length (ServiceModel.Models (ServiceModel md))) 0) as [Hlen|Hlen].
  { by apply nil_length_inv in Hlen. }
  simpl.
  assert (@Intn second (length (ServiceModel.Models (ServiceModel md)))
          < length (ServiceModel.Models (ServiceModel md))) as Hk.
  { apply Intn_range. lia. }
  apply lookup_lt_is_Some_2 in Hk as [name Hname]. exists name. rewrite Hname.
  split; [done|]. by apply list_elem_of_lookup_2 in Hname.
Qed.

(** X5: [GetRandomEnabledModelDetails] fails with "no enabled ModelDetails
    found" when the index holds no enabled detail, and otherwise returns
    an enabled detail that the index holds under some name; it always
    returns. *)
Theorem GetRandomEnabledModelDetails_outcomes `{IndexRange, RandSource} (g : Globals) :
  ((∀ d, ¬ candidate g d) →
     GetRandomEnabledModelDetails g = Some (inr NoEnabledDetails))
  ∧ (∀ d, candidate g d →
       ∃ md, GetRandomEnabledModelDetails g = Some (inl md) ∧ candidate g md).
Proof.
  split.
  - intros Hnone. apply GetRandomEnabledModelDetails_empty.
    destruct (allEnabled g) as [|d l] eqn:Hl; [done|].
    exfalso. apply (Hnone d), elem_of_allEnabled. rewrite Hl. by left.
  - intros d Hd. apply elem_of_allEnabled in Hd.
    destruct (GetRandomEnabledModelDetails_some g) as (md & Hmd & Hin).
    { intros Hnil. rewrite Hnil in Hd. by apply elem_of_nil in Hd. }
    exists md. split; [done|]. by apply elem_of_allEnabled.
Qed.

(** On an index with one enabled detail, and on the empty index. *)
Lemma GetRandomEnabledModelDetails_outcomes_witness :
  (∃ md, @GetRandomEnabledModelDetails samples2.listedIndex fixtures.drawLast
           fixtures.mixedGlobals = Some (inl md)
         ∧ ServiceName md = "beta")
  ∧ @GetRandomEnabledModelDetails samples2.listedIndex fixtures.drawLast
      fixtures.zeroGlobals = Some (inr NoEnabledDetails).
Proof.
  destruct (@GetRandomEnabledModelDetails_outcomes samples2.listedIndex fixtures.drawLast
              fixtures.mixedGlobals) as [_ Hsome].
  destruct (@GetRandomEnabledModelDetails_outcomes samples2.listedIndex fixtures.drawLast
              fixtures.zeroGlobals) as [Hnone _].
  split.
  - edestruct Hsome as (md & Hmd & _).
    { exists "gpt-4". eexists. split; [by vm_compute|]. split; [by right; left|done]. }
    exists md. split; [exact Hmd|]. revert Hmd. vm_compute. by intros [= <-].
  - apply Hnone. intros d (M & details & Hsome' & _). by vm_compute in Hsome'.
Defined.

(** X6: every enabled detail of the index is returned by
    [GetRandomEnabledModelDetails] for some draw. *)
Theorem GetRandomEnabledModelDetails_reaches `{IndexRange} (g : Globals) (d : ModelDetails) :
  candidate g d →
  ∃ R : RandSource, @GetRandomEnabledModelDetails _ R g = Some (inl d).
Proof.
  intros Hd. apply elem_of_allEnabled in Hd.
  assert (allEnabled g ≠ []) as Hne.
  { intros Hnil. rewrite Hnil in Hd. by apply elem_of_nil in Hd. }
  apply list_elem_of_lookup_1 in Hd as [i Hi].
  assert (∀ n, 0 < n → (if decide (i < n) then i else 0) < n) as Hrange.
  { intros n Hn. case_decide; done. }
  exists {| Intn := λ n, if decide (i < n) then i else 0; Intn_range := Hrange |}.
  rewrite GetRandomEnabledModelDetails_draw by done. simpl.
  rewrite decide_True by (by apply lookup_lt_Some in Hi). by rewrite Hi.
Qed.

(** On an index with one enabled detail. *)
Lemma GetRandomEnabledModelDetails_reaches_witness :
  ∃ R : RandSource,
    @GetRandomEnabledModelDetails samples2.listedIndex R fixtures.mixedGlobals
    = Some (inl {| ServiceName := "beta";
                   ServiceModel := fixtures.entry "k3" ["gpt-4"] true
                                     (fixtures.limitOf 0 0 0 0) |}).
Proof.
  apply (@GetRandomEnabledModelDetails_reaches samples2.listedIndex).
  exists "gpt-4". eexists. split; [by vm_compute|]. split; [by right; left|done].
Defined.

(** X7: [GetRandomEnabledModelDetailsV1] passes on the failure of the
    draw of a detail; for a detail with names it returns the detail with
    one of its own names; for a detail without names the second draw
    panics, so the function does not return. *)
Theorem GetRandomEnabledModelDetailsV1_outcomes `{IndexRange} (first second : RandSource)
    (g : Globals) :
  (∀ err, @GetRandomEnabledModelDetails _ first g = Some (inr err) →
     GetRandomEnabledModelDetailsV1 first second g = Some (inr err))
  ∧ (∀ md, @GetRandomEnabledModelDetails _ first g = Some (inl md) →
       ServiceModel.Models (ServiceModel md) ≠ [] →
       ∃ name, GetRandomEnabledModelDetailsV1 first second g = Some (inl (md, name))
               ∧ name ∈ ServiceModel.Models (ServiceModel md))
  ∧ (∀ md, @GetRandomEnabledModelDetails _ first g = Some (inl md) →
       ServiceModel.Models (ServiceModel md) = [] →
       GetRandomEnabledModelDetailsV1 first second g = None).
Proof.
  split; [|split].
  - intros err Hdraw. unfold GetRandomEnabledModelDetailsV1. by rewrite Hdraw.
  - intros md Hdraw Hnames. by apply GetRandomEnabledModelDetailsV1_named.
  - intros md Hdraw Hnames. unfold GetRandomEnabledModelDetailsV1.
    rewrite Hdraw. simpl. by rewrite Hnames.
Qed.

(** On an index whose only detail has no names the function does not
    return; on the empty index it fails. *)
Lemma GetRandomEnabledModelDetailsV1_outcomes_witness :
  @GetRandomEnabledModelDetailsV1 samples2.listedIndex fixtures.drawLast fixtures.drawLast
    samples2.namelessGlobals = None
  ∧ @GetRandomEnabledModelDetailsV1 samples2.listedIndex fixtures.drawLast fixtures.drawLast
      fixtures.zeroGlobals = Some (inr NoEnabledDetails)
  ∧ ∃ name, @GetRandomEnabledModelDetailsV1 samples2.listedIndex fixtures.drawLast
              fixtures.drawLast fixtures.mixedGlobals
            = Some (inl ({| ServiceName := "beta";
                            ServiceModel := fixtures.entry "k3" ["gpt-4"] true
                                              (fixtures.limitOf 0 0 0 0) |}, name))
            ∧ name ∈ ["gpt-4"].
Proof.
  destruct (@GetRandomEnabledModelDetailsV1_outcomes samples2.listedIndex fixtures.drawLast
              fixtures.drawLast samples2.namelessGlobals) as (_ & _ & Hpanic).
  destruct (@GetRandomEnabledModelDetailsV1_outcomes samples2.listedIndex fixtures.drawLast
              fixtures.drawLast fixtures.zeroGlobals) as (Hfail & _ & _).
  destruct (@GetRandomEnabledModelDetailsV1_outcomes samples2.listedIndex fixtures.drawLast
              fixtures.drawLast fixtures.mixedGlobals) as (_ & Hname & _).
  split; [|split].
  - eapply Hpanic; by vm_compute.
  - apply Hfail. by vm_compute.
  - apply (Hname {| ServiceName := "beta";
                    ServiceModel := fixtures.entry "k3" ["gpt-4"] true
                                      (fixtures.limitOf 0 0 0 0) |}); by vm_compute.
Defined.

(** X8: on an index that [createModelToServiceMap] built,
    [GetRandomEnabledModelDetailsV1] always returns: it fails only when the
    index is empty, and otherwise it returns a detail together with a name
    under which [GetAllModelService] lists that very detail. *)
Theorem GetRandomEnabledModelDetailsV1_on_built_index `{MapRange, IndexRange}
    (first second : RandSource) (config : Configuration.t) (g : Globals) :
  createModelToServiceMap config = Some (ModelToService g) →
  (GetRandomEnabledModelDetailsV1 first second g = Some (inr NoEnabledDetails)
   ∧ ModelToService g = ∅)
  ∨ ∃ md name details,
      GetRandomEnabledModelDetailsV1 first second g = Some (inl (md, name))
      ∧ GetAllModelService g name = inl details ∧ md ∈ details.
Proof.
  intros Hbuilt.
  destruct (createModelToServiceMap_returns config) as (idx & Hidx & Hpop & Hunder).
  rewrite Hbuilt in Hidx. injection Hidx as <-.
  destruct (decide (ModelToService g = ∅)) as [Hempty|Hne].
  - left. split; [|done]. unfold GetRandomEnabledModelDetailsV1.
    rewrite GetRandomEnabledModelDetails_empty; [done|].
    destruct (allEnabled g) as [|d l] eqn:Hl; [done|].
    assert (d ∈ allEnabled g) as Hd by (rewrite Hl; by left).
    apply elem_of_allEnabled in Hd as (M & details & Hlook & _).
    by rewrite Hempty, lookup_empty in Hlook.
  - right. apply map_choose in Hne as (M & details & Hlook).
    destruct details as [|d details]; [by apply Hpop in Hlook|].
    destruct (indexed_detail config _ M (d :: details) d Hbuilt Hlook)
      as (? & model0 & _ & _ & Hen & _ & Hprep); [by left|].
    destruct (@GetRandomEnabledModelDetails_some _ first g) as (md & Hmd & Hcand).
    { intros Hnil.
      assert (d ∈ allEnabled g) as Hd.
      { apply elem_of_allEnabled. exists M, (d :: details).
        split; [done|]. split; [by left|]. by rewrite Hprep. }
      rewrite Hnil in Hd. by apply elem_of_nil in Hd. }
    apply elem_of_allEnabled in Hcand as (M' & details' & Hlook' & Hin' & _).
    destruct (indexed_detail config _ M' details' md Hbuilt Hlook' Hin')
      as (serviceModels & model & Hsvc & Hmodel & Henabled & HM' & Hprep').
    destruct (GetRandomEnabledModelDetailsV1_named first second g md Hmd)
      as (name & Hrun & Hin).
    { rewrite Hprep'. simpl. intros Hnil. rewrite Hnil in HM'. by apply elem_of_nil in HM'. }
    assert (md ∈ ModelToService g !!! name) as Hunder_name.
    { rewrite Hunder. apply elem_of_entriesUnder.
      exists (ServiceName md), serviceModels, model.
      repeat (split; [done|]). split.
      - by rewrite Hprep' in Hin.
      - destruct md as [sn sm]. simpl in *. by rewrite Hprep'. }
    exists md, name, (ModelToService g !!! name). split; [done|]. split; [|done].
    unfold GetAllModelService. rewrite lookup_total_alt in Hunder_name |- *.
    destruct (ModelToService g !! name); [done|]. by apply elem_of_nil in Hunder_name.
Qed.

(** On two services. *)
Lemma GetRandomEnabledModelDetailsV1_on_built_index_witness :
  ∃ g, @createModelToServiceMap fixtures.listedRange fixtures.twoServices
         = Some (ModelToService g)
    ∧ ∃ md name details,
        @GetRandomEnabledModelDetailsV1 samples2.listedIndex fixtures.drawLast
          fixtures.drawLast g = Some (inl (md, name))
        ∧ GetAllModelService g name = inl details ∧ md ∈ details.
Proof.
  destruct (@createModelToServiceMap_returns fixtures.listedRange fixtures.twoServices)
    as (idx & Hidx & _).
  set (g := {| ModelToService := idx; LoadBalancingStrategy := "random";
               ServerPort := ":9090"; APIKey := ""; Debug := false |}).
  exists g. split; [exact Hidx|].
  destruct (@GetRandomEnabledModelDetailsV1_on_built_index fixtures.listedRange
              samples2.listedIndex fixtures.drawLast fixtures.drawLast
              fixtures.twoServices g Hidx) as [[_ Hempty]|Hrun]; [|exact Hrun].
  exfalso. revert Hidx. simpl in Hempty. rewrite Hempty. by vm_compute.
Defined.

End SamplingFurther.

Section StartupFurther.
Import config registry.

(** X9: [InitConfig] always returns. When it returns an error the package
    variables are as they were. When it returns [nil], the strategy and the
    port are not empty, an API key set before is not lost, no name of the
    index is bound to an empty list, and every detail under a name is
    enabled and lists that name. *)
Theorem InitConfig_postcondition `{MapRange, Host} (configName : string) (g0 : Globals) :
  ∃ g err, InitConfig configName g0 = Some (g, err)
    ∧ (err ≠ None → g = g0)
    ∧ (err = None →
         LoadBalancingStrategy g ≠ ""
         ∧ ServerPort g ≠ ""
         ∧ (APIKey g0 ≠ "" → APIKey g ≠ "")
         ∧ populated (ModelToService g)
         ∧ ∀ M details d, ModelToService g !! M = Some details → d ∈ details →
             ServiceModel.Enabled (ServiceModel d) = true
             ∧ M ∈ ServiceModel.Models (ServiceModel d)).
Proof.
  unfold InitConfig.
  destruct (ResolveRelativePathToAbsolute
              (if (configName =? "")%string then "config.json" else configName))
    as [path|err].
  2: { exists g0, (Some err). by repeat split. }
  destruct (ReadFile path) as [data|err].
  2: { exists g0, (Some err). by repeat split. }
  destruct (createModelToServiceMap_returns (Unmarshal data).1) as (idx & Hidx & Hpop & _).
  rewrite Hidx. simpl. eexists _, None. split; [reflexivity|]. split; [done|].
  intros _. simpl. split; [|split; [|split; [|split]]].
  - destruct (String.eqb_spec (Configuration.LoadBalancing (Unmarshal data).1) ""); done.
  - destruct (String.eqb_spec (Configuration.ServerPort (Unmarshal data).1) ""); done.
  - destruct (String.eqb_spec (Configuration.APIKey (Unmarshal data).1) ""); done.
  - exact Hpop.
  - intros M details d Hsome Hd.
    destruct (indexed_detail _ idx M details d Hidx Hsome Hd)
      as (? & model & _ & _ & Hen & Hname & Hprep).
    by rewrite Hprep.
Qed.

(** On a host whose document declares two services, and on one whose
    document cannot be read. *)
Lemma InitConfig_postcondition_witness :
  (∃ g, @InitConfig fixtures.listedRange fixtures.goodHost "" fixtures.zeroGlobals
        = Some (g, None)
        ∧ LoadBalancingStrategy g = "round-robin" ∧ ServerPort g = ":9090")
  ∧ @InitConfig fixtures.listedRange
      {| ResolveRelativePathToAbsolute := λ name, inl name;
         ReadFile := λ _, inr "no such file or directory";
         Unmarshal := λ _, (fixtures.zeroConfiguration, None) |}
      "" fixtures.mixedGlobals
    = Some (fixtures.mixedGlobals, Some "no such file or directory").
Proof.
  split.
  - destruct (@InitConfig_postcondition fixtures.listedRange fixtures.goodHost ""
                fixtures.zeroGlobals) as (g & err & Hrun & _ & Hok).
    assert (err = None) as -> by (revert Hrun; vm_compute; congruence).
    exists g. split; [exact Hrun|]. revert Hrun. vm_compute. by intros [= <-].
  - destruct (@InitConfig_postcondition fixtures.listedRange
                {| ResolveRelativePathToAbsolute := λ name, inl name;
                   ReadFile := λ _, inr "no such file or directory";
                   Unmarshal := λ _, (fixtures.zeroConfiguration, None) |}
                "" fixtures.mixedGlobals) as (g & err & Hrun & Hfail & _).
    rewrite Hrun. revert Hrun Hfail. simpl. intros [= <- <-] Hfail. reflexivity.
Defined.

(** X10: the token bucket of an entry limited per minute (qps not
    positive, qpm positive) has capacity qpm; up to 60 000 000 000 a minute
    it is refilled once every [i] nanoseconds, [i] being a minute divided
    by qpm and rounded down, and above that the division gives 0 and the
    bucket is refilled without limit. *)
Theorem qpm_limiter_interval (model : ServiceModel.t) :
  (Limit.QPS (ServiceModel.Limit model) ≤ 0)%Z →
  (0 < Limit.QPM (ServiceModel.Limit model))%Z →
  ∃ model', prepare model = Some model'
    ∧ ServiceModel.ConcurrencyLimiter model' = None
    ∧ ((Limit.QPM (ServiceModel.Limit model) ≤ time.Minute)%Z →
         ∃ i, ServiceModel.Limiter model'
              = Some (rate.NewLimiter (rate.OncePer i) (Limit.QPM (ServiceModel.Limit model)))
              ∧ (1 ≤ i)%Z
              ∧ (i * Limit.QPM (ServiceModel.Limit model) ≤ time.Minute)%Z
              ∧ (time.Minute < (i + 1) * Limit.QPM (ServiceModel.Limit model))%Z)
    ∧ ((time.Minute < Limit.QPM (ServiceModel.Limit model))%Z →
         ServiceModel.Limiter model'
         = Some (rate.NewLimiter rate.Inf (Limit.QPM (ServiceModel.Limit model)))).
Proof.
  intros Hqps Hqpm. exists (prepared model). split; [apply prepare_returns|].
  unfold prepared, governorOf. simpl.
  destruct (Z.ltb_spec 0 (Limit.QPS (ServiceModel.Limit model))) as [?|_]; [lia|].
  destruct (Z.ltb_spec 0 (Limit.QPM (ServiceModel.Limit model))) as [_|?]; [|lia].
  simpl. split; [done|].
  set (qpm := Limit.QPM (ServiceModel.Limit model)) in *.
  assert (Z.quot (1 * time.Minute) qpm = (time.Minute / qpm)%Z) as ->.
  { rewrite Z.mul_1_l. apply Z.quot_div_nonneg; [done | lia]. }
  unfold rate.Every. split.
  - intros Hle. exists (time.Minute / qpm)%Z.
    assert (1 ≤ time.Minute / qpm)%Z as Hone.
    { apply Z.div_le_lower_bound; lia. }
    destruct (Z.leb_spec (time.Minute / qpm) 0) as [?|_]; [lia|].
    split; [done|]. split; [done|].
    pose proof (Z.mul_div_le time.Minute qpm Hqpm).
    pose proof (Z.mul_succ_div_gt time.Minute qpm Hqpm). lia.
  - intros Hgt. rewrite Z.div_small by (unfold time.Minute in *; lia). done.
Qed.

(** At 120 a minute: one token every half second. *)
Lemma qpm_limiter_interval_witness :
  ∃ model', prepare (fixtures.entry "k1" ["gpt-4"] true (fixtures.limitOf 0 120 0 0))
            = Some model'
    ∧ ServiceModel.Limiter model' = Some (rate.NewLimiter (rate.OncePer 500000000) 120).
Proof.
  destruct (qpm_limiter_interval
              (fixtures.entry "k1" ["gpt-4"] true (fixtures.limitOf 0 120 0 0)))
    as (model' & Hrun & _ & Hinterval & _); [by vm_compute | by vm_compute |].
  exists model'. split; [exact Hrun|].
  revert Hrun. vm_compute. by intros [= <-].
Defined.

End StartupFurther.

(** * Further properties of the handler *)

Section PrefixFurther.

(** X17: [strings.HasPrefix] holds exactly of the strings that begin with
    the prefix, and [strings.TrimPrefix] gives back what follows the
    prefix, or the string itself when it does not begin with it. *)
Theorem TrimPrefix_spec (s prefix : string) :
  (strings.HasPrefix s prefix = true ↔ ∃ t, s = prefix +:+ t)
  ∧ (∀ t, strings.TrimPrefix (prefix +:+ t) prefix = t)
  ∧ (strings.HasPrefix s prefix = false → strings.TrimPrefix s prefix = s).
Proof.
  split; [|split].
  - revert s. induction prefix as [|p prefix IH]; intros s.
    + simpl. split; [by exists s | done].
    + destruct s as [|c s]; simpl.
      * split; [done | by intros [t Ht]].
      * rewrite andb_true_iff, IH. split.
        -- intros [Hc [t ->]]. apply Ascii.eqb_eq in Hc as ->. by exists t.
        -- intros [t [= -> ->]]. split; [apply Ascii.eqb_refl | by exists t].
  - intros t. unfold strings.TrimPrefix.
    assert (strings.HasPrefix (prefix +:+ t) prefix = true) as ->.
    { clear s. induction prefix as [|p prefix IH]; [done|].
      simpl. by rewrite Ascii.eqb_refl, IH. }
    clear s. induction prefix as [|p prefix IH].
    + simpl. rewrite Nat.sub_0_r. apply substring_whole.
    + change (String p prefix +:+ t) with (String p (prefix +:+ t)).
      cbn [String.length Nat.sub String.substring]. exact IH.
  - intros Hno. unfold strings.TrimPrefix. by rewrite Hno.
Qed.

(** On a data line and on a comment line. *)
Lemma TrimPrefix_spec_witness :
  strings.TrimPrefix "data:<A>" "data:" = "<A>"
  ∧ strings.TrimPrefix ": keep-alive" "data:" = ": keep-alive".
Proof.
  split.
  - apply (proj1 (proj2 (TrimPrefix_spec "" "data:")) "<A>").
  - apply (proj2 (proj2 (TrimPrefix_spec ": keep-alive" "data:"))). reflexivity.
Defined.

End PrefixFurther.

Section StreamFurther.
Import handler stream trace.
Context `{adapter.Conversions, json.Codec}.

(** What one round of the loop adds to the effects. *)
Lemma handleLine_effects oaiReq c line :
  ∃ es, gin.done (handleLine oaiReq c line).1 = gin.done c ++ es
        ∧ chunks (openai.ChatCompletionRequest.Model oaiReq) es
        ∧ length (gin.written es)
          ≤ (if strings.HasPrefix line "data:" then 1 else 0).
Proof.
  unfold handleLine.
  destruct (strings.HasPrefix line "data:").
  2: { exists []. rewrite app_nil_r. split; [done|]. split; [constructor | done]. }
  destruct (json.UnmarshalStreamResponse (strings.TrimPrefix line "data:")) as [response|err].
  2: { exists []. rewrite app_nil_r. split; [done|]. split; [constructor | simpl; lia]. }
  destruct (cozecn.StreamResponse.Event response =? "message")%string.
  - destruct (cozecn.Message.Type_ (cozecn.StreamResponse.Message response) =? "verbose")%string.
    { exists []. rewrite app_nil_r. split; [done|]. split; [constructor | simpl; lia]. }
    destruct (json.MarshalStreamResponse _) as [respData|err] eqn:Hencode.
    2: { exists []. rewrite app_nil_r. split; [done|]. split; [constructor | simpl; lia]. }
    exists [gin.WriteString (dataFrame respData)
              (match gin.faults c with [] => None | err :: _ => err end); gin.Flush].
    split; [|split].
    + unfold gin.writeString, gin.record, dataFrame.
      destruct (gin.faults c); simpl; by rewrite <- app_assoc.
    + refine (chunks_cons _ _ _ _ [] _ Hencode (chunks_nil _)). done.
    + done.
  - repeat case_match; exists []; rewrite app_nil_r;
      (split; [done|]); (split; [constructor | simpl; lia]).
Qed.

Lemma chunks_app model (es1 es2 : list gin.effect) :
  chunks model es1 → chunks model es2 → chunks model (es1 ++ es2).
Proof.
  induction 1 as [|resp payload err es Hmodel Hencode _ IH]; [done|].
  intros Hes2. simpl. exact (chunks_cons _ resp payload err _ Hmodel Hencode (IH Hes2)).
Qed.

Lemma scanLoop_effects oaiReq lines :
  ∀ c, ∃ es, gin.done (scanLoop oaiReq c lines).1 = gin.done c ++ es
             ∧ chunks (openai.ChatCompletionRequest.Model oaiReq) es
             ∧ length (gin.written es) ≤ length (dataLines lines).
Proof.
  induction lines as [|line lines IH]; intros c.
  - exists []. rewrite app_nil_r. split; [done|]. split; [constructor | done].
  - cbn [scanLoop].
    destruct (handleLine_effects oaiReq c line) as (es1 & Hes1 & Hchunks1 & Hlen1).
    assert (length (gin.written es1) + length (dataLines lines)
            ≤ length (dataLines (line :: lines))) as Hcount.
    { unfold dataLines. rewrite filter_cons.
      destruct (strings.HasPrefix line "data:"); simpl in *; lia. }
    destruct (handleLine oaiReq c line) as [c' [|err]]; simpl in Hes1.
    + destruct (IH c') as (es2 & Hes2 & Hchunks2 & Hlen2).
      exists (es1 ++ es2). rewrite Hes2, Hes1, app_assoc. split; [done|].
      split; [by apply chunks_app|]. rewrite written_app, length_app. lia.
    + exists es1. simpl. split; [done|]. split; [done|]. lia.
Qed.

(** X13: whatever the body, a streaming run adds to the effects of the
    context the headers, once, and then for each chunk one write of a data
    frame followed at once by a flush; each chunk is the encoding of a
    response that bears the model name of the request; there are at most
    as many writes as the body has data lines. *)
Theorem stream_effects (c : gin.Context) (oaiReq : openai.ChatCompletionRequest.t)
    (body : io.Reader) :
  ∃ es, gin.done (handleCozecnStreamResponse c oaiReq body).1
        = gin.done c ++ gin.EventStreamHeaders :: es
        ∧ chunks (openai.ChatCompletionRequest.Model oaiReq) es
        ∧ length (gin.written es) ≤ length (dataLines (io.Lines body)).
Proof.
  unfold handleCozecnStreamResponse.
  destruct (scanLoop_effects oaiReq (io.Lines body) (gin.record c gin.EventStreamHeaders))
    as (es & Hes & Hchunks & Hlen).
  exists es.
  destruct (scanLoop oaiReq (gin.record c gin.EventStreamHeaders) (io.Lines body))
    as [c' [|err]]; simpl in Hes.
  - unfold gin.record in Hes. simpl in Hes. rewrite <- app_assoc in Hes.
    by destruct (io.ScanErr body).
  - unfold gin.record in Hes. simpl in Hes. by rewrite <- app_assoc in Hes.
Qed.

(** A data line whose frame is not a message ends the loop. *)
Lemma handleLine_stops oaiReq c line :
  strings.HasPrefix line "data:" = true →
  (∀ f, json.UnmarshalStreamResponse (strings.TrimPrefix line "data:") = inl f →
        cozecn.StreamResponse.Event f ≠ "message") →
  ∃ err, handleLine oaiReq c line = (c, Return err).
Proof.
  intros Hdata Hkind. unfold handleLine. rewrite Hdata.
  destruct (json.UnmarshalStreamResponse (strings.TrimPrefix line "data:")) as [f|err];
    [|by eexists].
  specialize (Hkind f eq_refl). apply String.eqb_neq in Hkind. rewrite Hkind.
  repeat case_match; by eexists.
Qed.

(** X11: a data line that does not decode, or whose frame is not a
    message (done, error, or an event of no known kind), ends the stream:
    the lines that follow it, and the error of the scanner, are never
    looked at. *)
Theorem stream_ends_at_stop (c : gin.Context) (oaiReq : openai.ChatCompletionRequest.t)
    (body body' : io.Reader) (before after : list string) (line : string) :
  strings.HasPrefix line "data:" = true →
  (∀ f, json.UnmarshalStreamResponse (strings.TrimPrefix line "data:") = inl f →
        cozecn.StreamResponse.Event f ≠ "message") →
  io.Lines body = before ++ line :: after →
  io.Lines body' = before ++ [line] →
  handleCozecnStreamResponse c oaiReq body = handleCozecnStreamResponse c oaiReq body'.
Proof.
  intros Hdata Hkind Hbody Hbody'. unfold handleCozecnStreamResponse.
  rewrite Hbody, Hbody', !scanLoop_app.
  destruct (scanLoop oaiReq (gin.record c gin.EventStreamHeaders) before) as [c' [|err]];
    [|done].
  cbn [scanLoop]. destruct (handleLine_stops oaiReq c' line Hdata Hkind) as [err ->]. done.
Qed.

(** X12: when the lines before it let the loop go on, a data line that
    does not decode fails the stream with the decoder's error, a frame of
    no known kind fails it with the payload of the line, and a message
    that does not encode fails it with the encoder's error; in each case
    the context is left as the lines before made it. *)
Theorem stream_protocol_errors (c c' : gin.Context) (oaiReq : openai.ChatCompletionRequest.t)
    (body : io.Reader) (before after : list string) (payload : string) :
  io.Lines body = before ++ ("data:" +:+ payload) :: after →
  scanLoop oaiReq (gin.record c gin.EventStreamHeaders) before = (c', Next) →
  (∀ err, json.UnmarshalStreamResponse payload = inr err →
     handleCozecnStreamResponse c oaiReq body = (c', Some ("解析响应数据错误: " +:+ err)))
  ∧ (∀ f, json.UnmarshalStreamResponse payload = inl f → ¬ known f →
       handleCozecnStreamResponse c oaiReq body = (c', Some ("message error:" +:+ payload)))
  ∧ (∀ f err, json.UnmarshalStreamResponse payload = inl f → content f →
       json.MarshalStreamResponse (canonical oaiReq f) = inr err →
       handleCozecnStreamResponse c oaiReq body = (c', Some err)).
Proof.
  intros Hbody Hbefore. unfold handleCozecnStreamResponse.
  rewrite Hbody, scanLoop_app, Hbefore. cbn [scanLoop]. unfold handleLine.
  rewrite HasPrefix_data, TrimPrefix_data. split; [|split].
  - intros err Hdecode. by rewrite Hdecode.
  - intros f Hdecode Hunknown. rewrite Hdecode. unfold known in Hunknown.
    destruct (String.eqb_spec (cozecn.StreamResponse.Event f) "message"); [tauto|].
    destruct (String.eqb_spec (cozecn.StreamResponse.Event f) "done"); [tauto|].
    destruct (String.eqb_spec (cozecn.StreamResponse.Event f) "error"); [tauto|]. done.
  - intros f err Hdecode [Hmsg Hverbose] Hencode. rewrite Hdecode.
    apply String.eqb_eq in Hmsg. apply String.eqb_neq in Hverbose.
    rewrite Hmsg, Hverbose. unfold canonical in Hencode. by rewrite Hencode.
Qed.

End StreamFurther.

Section StreamSamples.
Import handler stream.

(** After a done frame a further message is not written. *)
Lemma stream_ends_at_stop_witness :
  @handleCozecnStreamResponse samples.conversions samples.codec
    (samples.context []) (samples.request true)
    (samples.streamed ["data:<A>"; "data:<done>"; "data:<B>"])
  = @handleCozecnStreamResponse samples.conversions samples.codec
      (samples.context []) (samples.request true)
      (samples.streamed ["data:<A>"; "data:<done>"]).
Proof.
  apply (@stream_ends_at_stop samples.conversions samples.codec
           (samples.context []) (samples.request true)
           (samples.streamed ["data:<A>"; "data:<done>"; "data:<B>"])
           (samples.streamed ["data:<A>"; "data:<done>"])
           ["data:<A>"] ["data:<B>"] "data:<done>").
  - reflexivity.
  - intros f. vm_compute. by intros [= <-].
  - reflexivity.
  - reflexivity.
Defined.

(** After one chunk, a line that is not JSON: the chunk stays written and
    the decoder's error is returned. *)
Lemma stream_protocol_errors_witness :
  @handleCozecnStreamResponse samples.conversions samples.codec
    (samples.context []) (samples.request true)
    (samples.streamed ["data:<A>"; "data:<html>"; "data:<B>"])
  = ({| gin.done := [ gin.EventStreamHeaders;
                      gin.WriteString (dataFrame "gpt-4|Hel") None;
                      gin.Flush ];
        gin.faults := [] |},
     Some ("解析响应数据错误: " +:+ "invalid character")).
Proof.
  apply (@stream_protocol_errors samples.conversions samples.codec
           (samples.context [])
           {| gin.done := [ gin.EventStreamHeaders;
                            gin.WriteString (dataFrame "gpt-4|Hel") None;
                            gin.Flush ];
              gin.faults := [] |}
           (samples.request true)
           (samples.streamed ["data:<A>"; "data:<html>"; "data:<B>"])
           ["data:<A>"] ["data:<B>"] "<html>"); reflexivity.
Defined.

End StreamSamples.

Section DispatchFurther.
Import handler stream trace.

(** A non-streaming response: an error and the context as it was, or
    one answer. *)
Lemma handleCozecnResponse_sync `{adapter.Conversions, json.Codec}
    (c : gin.Context) (resp : http.Response) (oaiReq : openai.ChatCompletionRequest.t) :
  openai.ChatCompletionRequest.Stream oaiReq = false →
  (∃ err, handleCozecnResponse c resp oaiReq = (c, Some err))
  ∨ ∃ completion,
      handleCozecnResponse c resp oaiReq = (gin.record c (gin.JSON 200 completion), None)
      ∧ openai.ChatCompletionResponse.Model completion
        = openai.ChatCompletionRequest.Model oaiReq.
Proof.
  intros Hsync. unfold handleCozecnResponse. rewrite Hsync.
  destruct (io.ReadAll (http.Body resp)) as [body|err]; [|left; by eexists].
  destruct (json.UnmarshalResponse body) as [respJson|err]; [|left; by eexists].
  destruct (cozecn.Response.Code respJson =? 0)%Z; simpl.
  - right. eexists. split; [reflexivity|]. done.
  - left. by eexists.
Qed.

(** X14: a non-streaming response is answered all or nothing. Either
    [handleCozecnResponse] returns an error and leaves the context as it
    was (the error of the read as it is, the error of the decoder behind
    the words for a decoding failure, or the backend's code and message),
    or it returns [nil] and has answered once, with status 200 and a
    completion that bears the model name of the request. *)
Theorem handleCozecnResponse_all_or_nothing `{adapter.Conversions, json.Codec}
    (c : gin.Context) (resp : http.Response) (oaiReq : openai.ChatCompletionRequest.t) :
  openai.ChatCompletionRequest.Stream oaiReq = false →
  (∃ err, handleCozecnResponse c resp oaiReq = (c, Some err)
          ∧ (io.ReadAll (http.Body resp) = inr err
             ∨ (∃ body err', io.ReadAll (http.Body resp) = inl body
                             ∧ json.UnmarshalResponse body = inr err'
                             ∧ err = "json解码错误: " +:+ err')
             ∨ ∃ body respJson, io.ReadAll (http.Body resp) = inl body
                                ∧ json.UnmarshalResponse body = inl respJson
                                ∧ cozecn.Response.Code respJson ≠ 0%Z
                                ∧ err = BackendError (cozecn.Response.Code respJson)
                                          (cozecn.Response.Msg respJson)))
  ∨ ∃ completion,
      handleCozecnResponse c resp oaiReq = (gin.record c (gin.JSON 200 completion), None)
      ∧ openai.ChatCompletionResponse.Model completion
        = openai.ChatCompletionRequest.Model oaiReq.
Proof.
  intros Hsync. unfold handleCozecnResponse. rewrite Hsync.
  destruct (io.ReadAll (http.Body resp)) as [body|err] eqn:Hread.
  2: { left. exists err. split; [done|]. by left. }
  destruct (json.UnmarshalResponse body) as [respJson|err] eqn:Hdecode.
  2: { left. eexists. split; [done|]. right. left. by exists body, err. }
  destruct (Z.eqb_spec (cozecn.Response.Code respJson) 0) as [Hcode|Hcode]; simpl.
  - right. eexists. split; [reflexivity|]. done.
  - left. eexists. split; [done|]. right. right. by exists body, respJson.
Qed.

(** On a body that cannot be read: the error of the read, and no answer. *)
Lemma handleCozecnResponse_all_or_nothing_witness :
  @handleCozecnResponse samples.conversions samples.codec (samples.context [])
    {| http.Body := samples.streamed [] |} (samples.request false)
  = (samples.context [], Some "unexpected EOF").
Proof.
  destruct (@handleCozecnResponse_all_or_nothing samples.conversions samples.codec
              (samples.context []) {| http.Body := samples.streamed [] |}
              (samples.request false) eq_refl) as [(err & Hrun & _)|(completion & Hrun & _)].
  - rewrite Hrun. revert Hrun. vm_compute. by intros [= <-].
  - exfalso. revert Hrun. vm_compute. discriminate.
Defined.

Section WithBackend.
Context `{adapter.Conversions, json.Codec, nethttp.Client, Outbound}.


(** X16: [OpenAI2CozecnHandler] answers a non-streaming request all or
    nothing: when it returns an error, whether from the encoding of the
    request, the address, the client or the response, the context is as it
    was; when it returns [nil] it has answered once, with status 200 and a
    completion that bears the model name of the request. *)
Theorem OpenAI2CozecnHandler_all_or_nothing (c : gin.Context) (s : config.ModelDetails)
    (oaiReq : openai.ChatCompletionRequest.t) :
  openai.ChatCompletionRequest.Stream oaiReq = false →
  (∃ err, OpenAI2CozecnHandler c s oaiReq = (c, Some err))
  ∨ ∃ completion,
      OpenAI2CozecnHandler c s oaiReq = (gin.record c (gin.JSON 200 completion), None)
      ∧ openai.ChatCompletionResponse.Model completion
        = openai.ChatCompletionRequest.Model oaiReq.
Proof.
  intros Hsync. unfold OpenAI2CozecnHandler, sendRequest.
  destruct (MarshalRequest (OpenAIRequestToCozecnRequest oaiReq)) as [jsonData|err];
    [|left; by eexists].
  destruct (nethttp.NewRequest "POST" _ jsonData) as [req|err]; [|left; by eexists].
  destruct (nethttp.Do _) as [resp|err]; [|left; by eexists].
  destruct (handleCozecnResponse_sync c resp oaiReq Hsync)
    as [(err & Hrun)|Hok]; [left; by exists err | by right].
Qed.

End WithBackend.


(** An entry whose API key is empty and whose token the backend does not
    know: the connection is refused and nothing is answered. *)
Lemma OpenAI2CozecnHandler_all_or_nothing_witness :
  @OpenAI2CozecnHandler samples.conversions samples.codec samples2.backend
    samples2.outbound (samples.context [])
    (samples2.detail "cozecn" "" "t1" "") (samples.request false)
  = (samples.context [], Some "connection refused").
Proof.
  destruct (@OpenAI2CozecnHandler_all_or_nothing samples.conversions samples.codec
              samples2.backend samples2.outbound (samples.context [])
              (samples2.detail "cozecn" "" "t1" "") (samples.request false) eq_refl)
    as [(err & Hrun)|(completion & Hrun & _)].
  - rewrite Hrun. revert Hrun. vm_compute. by intros [= <-].
  - exfalso. revert Hrun. vm_compute. discriminate.
Defined.

End DispatchFurther.

Section OrderFurther.
Import config registry.

(** Two visiting orders of two services: the details under "gpt-4" come
    in either order. *)
Lemma index_up_to_order_witness :
  ∃ idx1 idx2,
    @createModelToServiceMap fixtures.listedRange fixtures.twoServices = Some idx1
    ∧ @createModelToServiceMap samples2.reversedRange fixtures.twoServices = Some idx2
    ∧ idx1 !!! "gpt-4" ≡ₚ idx2 !!! "gpt-4"
    ∧ ServiceName <$> idx1 !!! "gpt-4" = ["alpha"; "beta"]
    ∧ ServiceName <$> idx2 !!! "gpt-4" = ["beta"; "alpha"].
Proof.
  destruct (index_up_to_order fixtures.listedRange samples2.reversedRange
              fixtures.twoServices) as (idx1 & idx2 & Hidx1 & Hidx2 & Hsame).
  exists idx1, idx2. split; [exact Hidx1|]. split; [exact Hidx2|].
  split; [apply Hsame|].
  revert Hidx1 Hidx2. vm_compute. intros [= <-] [= <-]. by split.
Defined.

(** X18: within one service the order of declaration is kept: the details
    that the enabled entries of a service contribute under a name, in the
    order of the entries and of their names, are a sublist of the details
    the index holds under that name. *)
Theorem service_order_kept `{MapRange} (config : Configuration.t)
    (serviceName : string) (serviceModels : list ServiceModel.t) (M : string) :
  Configuration.Services config !! serviceName = Some serviceModels →
  ∃ idx, createModelToServiceMap config = Some idx
         ∧ serviceUnder M serviceName serviceModels `sublist_of` idx !!! M.
Proof.
  intros Hsvc.
  destruct (createModelToServiceMap_returns config) as (idx & Hidx & _ & Hunder).
  exists idx. split; [done|]. rewrite Hunder.
  assert ((serviceName, serviceModels) ∈ range (Configuration.Services config)) as Hin.
  { by rewrite range_perm, elem_of_map_to_list. }
  apply list_elem_of_split in Hin as (l1 & l2 & ->).
  unfold entriesUnder. rewrite bind_app, bind_cons. simpl.
  apply sublist_inserts_l, sublist_inserts_r. done.
Qed.

(** A service with two enabled entries for one name. *)
Lemma service_order_kept_witness :
  ∃ idx,
    @createModelToServiceMap fixtures.listedRange
      (fixtures.documentOf "first"
         {[ "alpha" := [fixtures.entry "k1" ["gpt-4"] true (fixtures.limitOf 0 0 0 0);
                        fixtures.entry "k2" ["gpt-4"] true (fixtures.limitOf 0 0 0 0)] ]})
    = Some idx
    ∧ [ {| ServiceName := "alpha";
           ServiceModel := prepared (fixtures.entry "k1" ["gpt-4"] true
                                       (fixtures.limitOf 0 0 0 0)) |};
        {| ServiceName := "alpha";
           ServiceModel := prepared (fixtures.entry "k2" ["gpt-4"] true
                                       (fixtures.limitOf 0 0 0 0)) |} ]
      `sublist_of` idx !!! "gpt-4".
Proof.
  apply (@service_order_kept fixtures.listedRange
           (fixtures.documentOf "first"
              {[ "alpha" := [fixtures.entry "k1" ["gpt-4"] true (fixtures.limitOf 0 0 0 0);
                             fixtures.entry "k2" ["gpt-4"] true (fixtures.limitOf 0 0 0 0)] ]})
           "alpha"
           [fixtures.entry "k1" ["gpt-4"] true (fixtures.limitOf 0 0 0 0);
            fixtures.entry "k2" ["gpt-4"] true (fixtures.limitOf 0 0 0 0)] "gpt-4").
  by vm_compute.
Defined.

End OrderFurther.
